(** * FraudDetector: the scoring engine of fraud_detector.py

    A shallow embedding of [FraudDetector] (rule evaluation, anomaly
    scoring, score fusion, explanations, duplicate detection) and the
    properties of its specification.

    Conventions of the embedding.
    - A pandas Series over the default RangeIndex is a list, read by
      position; a boolean mask is a [list bool].
    - Amounts and the scores of the isolation forest are real numbers,
      modelled as exact rationals [Q]; quantile levels 0.95 and 0.99 and the
      epsilon 1e-6 are the rationals written in the source.
    - The score fusion of [detect_fraud] only ever multiplies and adds
      integers between 0 and 100: it is modelled with binary64 floats, as
      numpy evaluates it.
    - A missing cell (NaN / None) of a textual column is [None]; a cell of
      the flag column is a boolean or the missing value NaN. *)

From Stdlib Require Import ZArith QArith Qround Qminmax Qabs Lqa String Ascii.
From Stdlib Require Import Floats Uint63 Sorted.
From stdpp Require Import base list strings.

Set Warnings "-inexact-float".
Local Open Scope Z_scope.

(** ** Series primitives *)

Module Series.

(** A cell of a textual column; [None] is a missing value. *)
Definition cell := option string.

(** [a == b] on cells: a missing value equals nothing, itself included. *)
Definition cell_eq (a b : cell) : bool :=
  match a, b with
  | Some x, Some y => bool_decide (x = y)
  | _, _ => false
  end.

(** Identity of cells as hashing sees it ([unique], [value_counts],
    [isin]): all missing values are one key. *)
Definition cell_same (a b : cell) : bool := bool_decide (a = b).

(** [col == v] *)
Definition eq_mask (col : list cell) (v : cell) : list bool :=
  (fun c => cell_eq c v) <$> col.

(** [mask.sum()], also [len(df[mask])] *)
Fixpoint mask_count (mask : list bool) : Z :=
  match mask with
  | [] => 0
  | b :: mask' => (if b then 1 else 0) + mask_count mask'
  end.

(** [scores[mask] += k]; a position the mask does not cover is left alone. *)
Fixpoint add_where (mask : list bool) (k : Z) (scores : list Z) : list Z :=
  match scores, mask with
  | s :: scores', b :: mask' =>
      (if b then s + k else s) :: add_where mask' k scores'
  | _, _ => scores
  end.

(** [scores.clip(lo, hi)] *)
Definition clip (lo hi : Z) (scores : list Z) : list Z :=
  (fun s => Z.max lo (Z.min hi s)) <$> scores.

(** [pd.Series(0, index=df.index)] *)
Definition zeros (n : nat) : list Z := replicate n 0.

(** [col.unique()]: the distinct values in order of first appearance. *)
Fixpoint unique (col : list cell) : list cell :=
  match col with
  | [] => []
  | x :: col' => x :: filter (fun y => y <> x) (unique col')
  end.

(** Stable insertion by descending count. *)
Fixpoint insert_desc (x : cell * Z) (l : list (cell * Z)) : list (cell * Z) :=
  match l with
  | [] => [x]
  | y :: l' => if snd y <=? snd x then x :: l else y :: insert_desc x l'
  end.

Definition sort_desc (l : list (cell * Z)) : list (cell * Z) :=
  foldr insert_desc [] l.

(** [col.value_counts()]: missing values dropped, one entry per distinct
    value with its number of occurrences, most frequent first. *)
Definition value_counts (col : list cell) : list (cell * Z) :=
  sort_desc
    ((fun k => (k, mask_count (eq_mask col k))) <$>
     filter is_Some (unique col)).

(** [counts[counts > k]] *)
Definition counts_above (k : Z) (counts : list (cell * Z)) : list (cell * Z) :=
  filter (fun kc => k < snd kc) counts.

(** [col.isin(keys)] *)
Definition isin (col : list cell) (keys : list cell) : list bool :=
  (fun c => existsb (cell_same c) keys) <$> col.

End Series.

(** ** Rational arithmetic of the amount column *)

Module Amount.

Local Open Scope Q_scope.

Definition Qlt_bool (x y : Q) : bool := negb (Qle_bool y x).

(** Python's [a % m] on reals, for a positive modulus. *)
Definition Qmod (a m : Q) : Q := a - m * inject_Z (Qfloor (a / m)).

Fixpoint insert_sorted (x : Q) (l : list Q) : list Q :=
  match l with
  | [] => [x]
  | y :: l' => if Qle_bool x y then x :: l else y :: insert_sorted x l'
  end.

Definition sort_values (l : list Q) : list Q := foldr insert_sorted [] l.

(** [col.quantile(q)] with pandas' default linear interpolation: the value
    at the virtual position [q * (n - 1)] of the sorted column.  An empty
    column has no quantile (NaN). *)
Definition quantile (col : list Q) (q : Q) : option Q :=
  match sort_values col with
  | [] => None
  | (a0 :: _) as s =>
      let n := Z.of_nat (length s) in
      let pos := q * inject_Z (n - 1) in
      let lo := Qfloor pos in
      let hi := Z.min (lo + 1) (n - 1)%Z in
      let frac := pos - inject_Z lo in
      let a := nth (Z.to_nat lo) s a0 in
      let b := nth (Z.to_nat hi) s a0 in
      Some (a + (b - a) * frac)
  end.

(** [col > threshold]; a comparison with NaN is false everywhere. *)
Definition gt_mask (col : list Q) (threshold : option Q) : list bool :=
  match threshold with
  | Some t => (fun a => Qlt_bool t a) <$> col
  | None => (fun _ => false) <$> col
  end.

(** [col % 1000 == 0] *)
Definition round_mask (col : list Q) : list bool :=
  (fun a => Qeq_bool (Qmod a 1000) 0) <$> col.

(** [col.sum()] *)
Definition Qsum (l : list Q) : Q := foldr Qplus 0 l.

End Amount.


(** ** Rendering of amounts: the format [:,.0f] *)

Module Format.

(** Rounding to the nearest integer, ties to the even one. *)
Definition round_half_even (x : Q) : Z :=
  let f := Qfloor x in
  match Qcompare (x - inject_Z f) (1 # 2) with
  | Lt => f
  | Gt => f + 1
  | Eq => if Z.even f then f else f + 1
  end.

Definition digit (d : Z) : ascii := ascii_of_nat (48 + Z.to_nat d).

(** Decimal digits of [n >= 0], least significant first, a comma after
    every third one; [k] digits of the current group are already in [acc]. *)
Fixpoint grouped (fuel : nat) (n : Z) (k : nat) (acc : string) : string :=
  match fuel with
  | O => acc
  | S fuel' =>
      let acc' :=
        String (digit (n mod 10)) (if Nat.eqb k 3 then String "," acc else acc) in
      let k' := if Nat.eqb k 3 then 1%nat else S k in
      if n / 10 =? 0 then acc' else grouped fuel' (n / 10) k' acc'
  end.

(** The digits of [n >= 0] in groups of three. *)
Definition thousands (n : Z) : string :=
  grouped (S (Z.to_nat (Z.log2 n))) n 0 EmptyString.

(** [f"{x:,.0f}"]: the value rounded to an integer, with the sign of [x]
    itself, also when [x] rounds to zero. *)
Definition comma_0f (x : Q) : string :=
  let sign : string := if Amount.Qlt_bool x 0 then "-" else EmptyString in
  (sign ++ thousands (Z.abs (round_half_even x)))%string.

(** [f"₹{x:,.0f}"], with the bytes of the currency sign as the source file
    has them. *)
Definition rupees (x : Q) : string := ("‚Çπ" ++ comma_0f x)%string.

End Format.

(** ** The batch *)

Import Series Amount.

(** A cell of the flag column: a boolean, or missing.  A blank cell of a
    CSV file is read as NaN, also in a column of booleans. *)
Inductive flag_cell := Flag (b : bool) | FlagNaN.

#[global] Instance flag_cell_eq_dec : EqDecision flag_cell.
Proof. solve_decision. Defined.

(** [bool(cell)]: NaN is a float other than zero, which Python finds
    true. *)
Definition truthy (c : flag_cell) : bool :=
  match c with
  | Flag b => b
  | FlagNaN => true
  end.

(** A DataFrame, column by column.  [amount] is the required column; a
    column that the frame does not have is [None].  [timestamp] holds
    datetimes, as nanoseconds since the epoch. *)
Record DataFrame := {
  amount : list Q;
  beneficiary_id : option (list cell);
  timestamp : option (list Z);
  account_number : option (list cell);
  scheme : option (list cell);
  region : option (list cell);
  duplicate_flag : option (list flag_cell);
  risk_score : option (list Z);
  fraud_indicators : option (list string);
  risk_level : option (list string)
}.

(** [len(df)] *)
Definition len (df : DataFrame) : nat := length (amount df).

(** [df['risk_score'] = v] and its siblings. *)
Definition set_risk_score (v : list Z) (df : DataFrame) : DataFrame :=
  {| amount := amount df; beneficiary_id := beneficiary_id df;
     timestamp := timestamp df; account_number := account_number df;
     scheme := scheme df; region := region df;
     duplicate_flag := duplicate_flag df;
     risk_score := Some v;
     fraud_indicators := fraud_indicators df; risk_level := risk_level df |}.

Definition set_fraud_indicators (v : list string) (df : DataFrame) : DataFrame :=
  {| amount := amount df; beneficiary_id := beneficiary_id df;
     timestamp := timestamp df; account_number := account_number df;
     scheme := scheme df; region := region df;
     duplicate_flag := duplicate_flag df;
     risk_score := risk_score df;
     fraud_indicators := Some v; risk_level := risk_level df |}.

Definition set_risk_level (v : list string) (df : DataFrame) : DataFrame :=
  {| amount := amount df; beneficiary_id := beneficiary_id df;
     timestamp := timestamp df; account_number := account_number df;
     scheme := scheme df; region := region df;
     duplicate_flag := duplicate_flag df;
     risk_score := risk_score df;
     fraud_indicators := fraud_indicators df; risk_level := Some v |}.

(** The frame with the amount of row [i] replaced. *)
Definition set_amount (i : nat) (a : Q) (df : DataFrame) : DataFrame :=
  {| amount := <[i := a]> (amount df); beneficiary_id := beneficiary_id df;
     timestamp := timestamp df; account_number := account_number df;
     scheme := scheme df; region := region df;
     duplicate_flag := duplicate_flag df;
     risk_score := risk_score df;
     fraud_indicators := fraud_indicators df; risk_level := risk_level df |}.

(** One row, as [DataFrame.apply(axis=1)] hands it to its function: a field
    is [None] when the frame has no such column. *)
Record Row := {
  row_amount : Q;
  row_scheme : option cell;
  row_duplicate_flag : option flag_cell
}.

Definition rows (df : DataFrame) : list Row :=
  imap (fun i a =>
          {| row_amount := a;
             row_scheme := col ← scheme df; col !! i;
             row_duplicate_flag := col ← duplicate_flag df; col !! i |})
       (amount df).

(** ** RuleEvaluator: [_apply_rules] *)

Module Rules.

(** Rule 1: unusually high amounts (> 95th percentile). *)
Definition high_amount (df : DataFrame) (scores : list Z) : list Z :=
  let threshold_high := quantile (amount df) (95 # 100) in
  add_where (gt_mask (amount df) threshold_high) 30 scores.

(** Rule 2: very high amounts (> 99th percentile). *)
Definition very_high_amount (df : DataFrame) (scores : list Z) : list Z :=
  let threshold_very_high := quantile (amount df) (99 # 100) in
  add_where (gt_mask (amount df) threshold_very_high) 40 scores.

(** The body of the loop of rule 3, for one beneficiary. *)
Definition burst_step (col : list cell) (scores : list Z) (beneficiary : cell)
  : list Z :=
  let mask := eq_mask col beneficiary in
  let len_txns := mask_count mask in
  if 2 <? len_txns
  then add_where mask (Z.min (20 * (len_txns - 1)) 30) scores
  else scores.

(** Rule 3: multiple transactions of the same beneficiary; it runs when
    the frame has both a beneficiary and a timestamp column. *)
Definition burst (df : DataFrame) (scores : list Z) : list Z :=
  match beneficiary_id df, timestamp df with
  | Some col, Some _ => fold_left (burst_step col) (unique col) scores
  | _, _ => scores
  end.

(** Rule 4: suspicious account patterns. *)
Definition account (df : DataFrame) (scores : list Z) : list Z :=
  match account_number df with
  | Some col =>
      let account_counts := value_counts col in
      let high_freq_accounts := fst <$> counts_above 5 account_counts in
      add_where (isin col high_freq_accounts) 25 scores
  | None => scores
  end.

(** Rule 5: round amounts. *)
Definition round_amount (df : DataFrame) (scores : list Z) : list Z :=
  if 0 <? mask_count (round_mask (amount df))
  then add_where (round_mask (amount df)) 15 scores
  else scores.

End Rules.

Definition _apply_rules (df : DataFrame) : list Z :=
  let scores := zeros (len df) in
  let scores := Rules.high_amount df scores in
  let scores := Rules.very_high_amount df scores in
  let scores := Rules.burst df scores in
  let scores := Rules.account df scores in
  let scores := Rules.round_amount df scores in
  clip 0 100 scores.

(** ** AnomalyScorer: [_apply_ml_detection] *)

(** The feature matrix handed to the isolation forest. *)
Record Features := {
  feat_amount : list Q;
  feat_scheme_code : option (list (option Z));
  feat_region_code : option (list (option Z));
  feat_timestamp : option (list Z)
}.

Module Anomaly.

Local Open Scope Q_scope.

(** [{v: i for i, v in enumerate(col.unique())}] looked up at a cell. *)
Fixpoint index_of (c : cell) (keys : list cell) : option Z :=
  match keys with
  | [] => None
  | k :: keys' =>
      if cell_same c k then Some 0%Z
      else (fun i => i + 1)%Z <$> index_of c keys'
  end.

(** [col.map(code_map)] for the map built from the column itself. *)
Definition encode (col : list cell) : list (option Z) :=
  (fun c => index_of c (unique col)) <$> col.

Definition features (df : DataFrame) : Features :=
  {| feat_amount := amount df;
     feat_scheme_code := encode <$> scheme df;
     feat_region_code := encode <$> region df;
     feat_timestamp := timestamp df |}.

Definition Qlist_min (l : list Q) : Q :=
  match l with
  | [] => 0
  | x :: l' => fold_left Qmin l' x
  end.

Definition Qlist_max (l : list Q) : Q :=
  match l with
  | [] => 0
  | x :: l' => fold_left Qmax l' x
  end.

(** [float.astype(int)]: truncation towards zero. *)
Definition Qtruncate (x : Q) : Z := Z.quot (Qnum x) (Zpos (Qden x)).

Definition Qclip (lo hi x : Q) : Q := Qmax lo (Qmin hi x).

(** [(predictions == -1).astype(int)] at one row. *)
Definition outlier_flag (prediction : Z) : Q :=
  if (prediction =? -1)%Z then 1 else 0.

(** The body of the [try] block once the forest has answered: min-max
    normalisation with epsilon, the outlier mask, clip, truncation.  The
    first value given to [ml_scores] there is overwritten before it is
    read and has no counterpart here. *)
Definition masked_scores (predictions : list Z) (anomaly_scores : list Q)
  : list Z :=
  let lo := Qlist_min anomaly_scores in
  let hi := Qlist_max anomaly_scores in
  let normalized_scores :=
    (fun s => (s - lo) / (hi - lo + (1 # 1000000)) * 100) <$> anomaly_scores in
  let ml_scores :=
    zip_with (fun x p => Qabs (x * outlier_flag p)) normalized_scores predictions in
  (fun x => Qtruncate (Qclip 0 100 x)) <$> ml_scores.

End Anomaly.

(** What [_apply_ml_detection] returns: a numpy array from the [try]
    block, a pandas Series from the [except] block. *)
Inductive MlScores :=
| NdArray (values : list Z)
| SeriesOf (values : list Z).

Definition ml_values (s : MlScores) : list Z :=
  match s with NdArray v | SeriesOf v => v end.

(** ** ScoreFuser *)

Module Fusion.

Definition float_of_Z (z : Z) : float := PrimFloat.of_uint63 (Uint63.of_Z z).

(** [float.astype(int)] for a float in [[0, 2^53)]: the integer part. *)
Definition truncate (x : float) : Z :=
  let (m, e) := PrimFloat.frshiftexp x in
  let mantissa := Uint63.to_Z (PrimFloat.normfr_mantissa m) in
  let exponent := Uint63.to_Z e - FloatOps.shift in
  Z.shiftr mantissa (53 - exponent).

(** [int(rule * 0.6 + ml * 0.4)] in binary64. *)
Definition fuse (rule ml : Z) : Z :=
  truncate (float_of_Z rule * 0.6 + float_of_Z ml * 0.4)%float.

(** [(rule_scores * 0.6 + ml_scores * 0.4).astype(int)] *)
Definition fuse_scores (rule_scores ml_scores : list Z) : list Z :=
  zip_with fuse rule_scores ml_scores.

(** The risk level badge, with the bytes of the source file. *)
Definition level (x : Z) : string :=
  if x <? 50 then "üü¢ Low"
  else if x <? 75 then "üü° Medium" else "üî¥ High".

End Fusion.

(** ** ExplanationGenerator: [_explain_fraud] *)

Module Explain.

Local Open Scope string_scope.

Definition high_amount (a : Q) : string :=
  "‚Ä¢ **Unusually high amount**: " ++ Format.rupees a.
Definition duplicate : string :=
  "‚Ä¢ **Same account/ID appears multiple times** (possible duplicate claims)".
Definition nrega : string :=
  "‚Ä¢ **NREGA: Amount exceeds typical wage limit**".
Definition pds : string :=
  "‚Ä¢ **PDS: Amount unusual for public distribution**".
Definition ml_anomaly : string :=
  "‚Ä¢ **Unusual pattern detected** (ML anomaly detection)".
Definition round_amount : string :=
  "‚Ä¢ **Round amount** (common in fraudulent transactions)".
Definition low_anomaly : string :=
  "‚Ä¢ **Low anomaly score** - Passed basic checks".

(** [row.get('scheme') == name] *)
Definition scheme_is (row : Row) (name : string) : bool :=
  match row_scheme row with
  | Some c => cell_eq c (Some name)
  | None => false
  end.

(** ['duplicate_flag' in row and row['duplicate_flag']] *)
Definition flagged (row : Row) : bool :=
  match row_duplicate_flag row with
  | Some c => truthy c
  | None => false
  end.

(** [reasons.append(r)] when the condition holds. *)
Definition append_if (c : bool) (r : string) (reasons : list string)
  : list string :=
  if c then reasons ++ [r] else reasons.

(** The list [reasons] at the end of [_explain_fraud]. *)
Definition reasons (row : Row) (rule_score ml_score : Z) : list string :=
  let a := row_amount row in
  let reasons := [] in
  let reasons := append_if (Qlt_bool 100000 a) (high_amount a) reasons in
  let reasons := append_if (flagged row) duplicate reasons in
  let reasons :=
    append_if (scheme_is row "NREGA" && Qlt_bool 50000 a) nrega reasons in
  let reasons :=
    append_if (scheme_is row "PDS" && Qlt_bool 10000 a) pds reasons in
  let reasons := append_if (40 <? ml_score)%Z ml_anomaly reasons in
  let reasons := append_if (Qeq_bool (Qmod a 1000) 0) round_amount reasons in
  match reasons with
  | [] => [low_anomaly]
  | _ => reasons
  end.

Definition newline : string := String (ascii_of_nat 10) EmptyString.

End Explain.

Definition _explain_fraud (row : Row) (rule_score ml_score : Z) : string :=
  String.concat Explain.newline (Explain.reasons row rule_score ml_score).

(** ** Exceptions and the object store *)

Inductive exn := AttributeError | KeyError | InvalidReference.

Inductive outcome (A : Type) :=
| Returns (a : A)
| Raises (e : exn).
Arguments Returns {A} a.
Arguments Raises {A} e.

#[global] Instance outcome_ret : MRet outcome := @Returns.
#[global] Instance outcome_bind : MBind outcome := fun A B f c =>
  match c with
  | Returns a => f a
  | Raises e => Raises e
  end.

(** DataFrame objects live in a store and are passed by reference;
    [InvalidReference] stands for a reference to no object, which Python
    cannot produce. *)
Definition loc := nat.
Definition store := list DataFrame.

(** A computation over the store that returns or raises. *)
Definition M (A : Type) : Type := store -> store * outcome A.

#[global] Instance M_ret : MRet M := fun A a st => (st, Returns a).
#[global] Instance M_bind : MBind M := fun A B f c st =>
  match c st with
  | (st', Returns a) => f a st'
  | (st', Raises e) => (st', Raises e)
  end.

Module Store.

(** An outcome computed without touching the store. *)
Definition lift {A} (o : outcome A) : M A := fun st => (st, o).

(** Reading the object behind a reference. *)
Definition deref (l : loc) : M DataFrame := fun st =>
  match st !! l with
  | Some d => (st, Returns d)
  | None => (st, Raises InvalidReference)
  end.

(** [df.copy()]: a new object with the same columns. *)
Definition copy (l : loc) : M loc := fun st =>
  match st !! l with
  | Some d => (st ++ [d], Returns (length st))
  | None => (st, Raises InvalidReference)
  end.

(** [obj[column] = v]: the object behind the reference is updated in place. *)
Definition setitem (l : loc) (f : DataFrame -> DataFrame) : M unit := fun st =>
  match st !! l with
  | Some d => (<[l := f d]> st, Returns tt)
  | None => (st, Raises InvalidReference)
  end.

End Store.

(** [Series.get(label, default)]; a numpy array has no such method. *)
Definition get (s : MlScores) (label : nat) (default : Z) : outcome Z :=
  match s with
  | SeriesOf v => Returns (match v !! label with Some x => x | None => default end)
  | NdArray _ => Raises AttributeError
  end.

(** [frame.apply(f, axis=1)]: the function is called on each row in turn,
    with the row's label; the first exception ends the call. *)
Fixpoint apply_axis1_from {A} (f : nat -> Row -> outcome A) (label : nat)
  (rs : list Row) : outcome (list A) :=
  match rs with
  | [] => Returns []
  | r :: rs' =>
      x ← f label r;
      xs ← apply_axis1_from f (S label) rs';
      Returns (x :: xs)
  end.

Definition apply_axis1 {A} (f : nat -> Row -> outcome A) (df : DataFrame)
  : outcome (list A) :=
  apply_axis1_from f 0 (rows df).

(** [df[mask][column]]: boolean indexing. *)
Fixpoint select {A} (mask : list bool) (col : list A) : list A :=
  match mask, col with
  | b :: mask', x :: col' => if b then x :: select mask' col' else select mask' col'
  | _, _ => []
  end.

(** A duplicate alert record. *)
Record Alert := {
  Beneficiary_ID : cell;
  Transaction_Count : Z;
  High_Risk_Txns : Z;
  Total_Amount : string;
  Alert_tag : string
}.

(** ** The detector *)

Section FraudDetector.

(** [self.model]: scikit-learn's [IsolationForest(contamination=0.1,
    random_state=42)].  On a feature matrix it answers the labels of
    [fit_predict] (-1 outlier, 1 inlier) and the [score_samples], or raises
    ([None]). *)
Variable IsolationForest : Features -> option (list Z * list Q).

(** scikit-learn refuses a matrix without samples and answers one label
    and one score per sample. *)
Definition fit_predict_scores (X : Features) : option (list Z * list Q) :=
  let n := length (feat_amount X) in
  match IsolationForest X with
  | Some (predictions, anomaly_scores) =>
      if bool_decide (n ≠ 0%nat ∧ length predictions = n ∧ length anomaly_scores = n)
      then Some (predictions, anomaly_scores)
      else None
  | None => None
  end.

Definition _apply_ml_detection (df : DataFrame) : MlScores :=
  let features_df := Anomaly.features df in
  match fit_predict_scores features_df with
  | Some (predictions, anomaly_scores) =>
      NdArray (Anomaly.masked_scores predictions anomaly_scores)
  | None => SeriesOf (zeros (len df))
  end.

Definition detect_fraud (df : loc) : M loc :=
  results ← Store.copy df;
  frame ← Store.deref results;
  let rule_scores := _apply_rules frame in
  let ml_scores := _apply_ml_detection frame in
  _ ← Store.setitem results
        (set_risk_score (Fusion.fuse_scores rule_scores (ml_values ml_scores)));
  frame ← Store.deref results;
  indicators ← Store.lift
    (apply_axis1
       (fun name row =>
          let rule_score := match rule_scores !! name with Some x => x | None => 0 end in
          ml_score ← get ml_scores name 0;
          Returns (_explain_fraud row rule_score ml_score))
       frame);
  _ ← Store.setitem results (set_fraud_indicators indicators);
  frame ← Store.deref results;
  levels ← Store.lift
    (match risk_score frame with
     | Some scores => Returns (Fusion.level <$> scores)
     | None => Raises KeyError
     end);
  _ ← Store.setitem results (set_risk_level levels);
  mret results.

End FraudDetector.

(** ** DuplicateIdentityDetector: [detect_duplicates] *)

Module Duplicates.

Definition tag : string := "‚ö†Ô∏è Potential Identity Fraud".

(** [(col >= 50).sum()] *)
Definition high_risk (scores : list Z) : Z :=
  mask_count ((fun x => 50 <=? x) <$> scores).

(** The body of the loop, for one entry of the filtered value counts. *)
Definition step (df : DataFrame) (col : list cell)
  (duplicates : list Alert) (entry : cell * Z) : outcome (list Alert) :=
  let (beneficiary, count) := entry in
  let mask := eq_mask col beneficiary in
  match risk_score df with
  | None => Raises KeyError
  | Some scores =>
      let high_risk_count := high_risk (select mask scores) in
      if 0 <? high_risk_count
      then Returns
             (duplicates ++
              [{| Beneficiary_ID := beneficiary;
                  Transaction_Count := count;
                  High_Risk_Txns := high_risk_count;
                  Total_Amount := Format.rupees (Qsum (select mask (amount df)));
                  Alert_tag := tag |}])
      else Returns duplicates
  end.

(** A loop whose body may raise. *)
Fixpoint for_each {A B} (body : B -> A -> outcome B) (l : list A) (acc : B)
  : outcome B :=
  match l with
  | [] => Returns acc
  | x :: l' => acc' ← body acc x; for_each body l' acc'
  end.

End Duplicates.

Definition detect_duplicates (df : DataFrame) : outcome (list Alert) :=
  let duplicates := [] in
  match beneficiary_id df with
  | Some col =>
      let dup_beneficiaries := value_counts col in
      Duplicates.for_each (Duplicates.step df col)
        (counts_above 1 dup_beneficiaries) duplicates
  | None => Returns duplicates
  end.

(** ** The dashboard's reading of a scored frame (app.py) *)

Module App.

(** [(results_df['risk_score'] >= 75).sum()] *)
Definition high_risk (scores : list Z) : Z :=
  mask_count ((fun x => 75 <=? x) <$> scores).

(** [((results_df['risk_score'] >= 50) & (results_df['risk_score'] < 75)).sum()] *)
Definition medium_risk (scores : list Z) : Z :=
  mask_count (zip_with andb ((fun x => 50 <=? x) <$> scores)
                            ((fun x => x <? 75) <$> scores)).

(** [(results_df['risk_score'] < 50).sum()] *)
Definition low_risk (scores : list Z) : Z :=
  mask_count ((fun x => x <? 50) <$> scores).

(** The four numbers of the summary row. *)
Record Summary := {
  total_txns : Z;
  high : Z;
  medium : Z;
  low : Z
}.

Definition summary (results_df : DataFrame) : outcome Summary :=
  let total_txns := Z.of_nat (len results_df) in
  match risk_score results_df with
  | Some scores =>
      Returns {| total_txns := total_txns;
                 high := high_risk scores;
                 medium := medium_risk scores;
                 low := low_risk scores |}
  | None => Raises KeyError
  end.

(** [df[mask]]: the rows the mask keeps, in every column. *)
Definition filter_rows (mask : list bool) (df : DataFrame) : DataFrame :=
  {| amount := select mask (amount df);
     beneficiary_id := select mask <$> beneficiary_id df;
     timestamp := select mask <$> timestamp df;
     account_number := select mask <$> account_number df;
     scheme := select mask <$> scheme df;
     region := select mask <$> region df;
     duplicate_flag := select mask <$> duplicate_flag df;
     risk_score := select mask <$> risk_score df;
     fraud_indicators := select mask <$> fraud_indicators df;
     risk_level := select mask <$> risk_level df |}.

(** [results_df[results_df['risk_score'] >= 75]], the frame behind the
    high-risk export and the per-region and per-scheme charts. *)
Definition high_risk_rows (results_df : DataFrame) : outcome DataFrame :=
  match risk_score results_df with
  | Some scores =>
      Returns (filter_rows ((fun x => 75 <=? x) <$> scores) results_df)
  | None => Raises KeyError
  end.

End App.

(** * Vocabulary of the properties *)

(** ** Masks, contributions and scores *)

(** The truth value of a mask at a position, false where it has none. *)
Definition mask_at (mask : list bool) (i : nat) : bool :=
  match mask !! i with Some b => b | None => false end.

Module Gain.

(** The five contributions to the score of row [i], as the rules of
    [_apply_rules] give them. *)
Definition high (df : DataFrame) (i : nat) : Z :=
  if mask_at (gt_mask (amount df) (quantile (amount df) (95 # 100))) i
  then 30 else 0.

Definition very_high (df : DataFrame) (i : nat) : Z :=
  if mask_at (gt_mask (amount df) (quantile (amount df) (99 # 100))) i
  then 40 else 0.

(** The transactions of a beneficiary in the column. *)
Definition txn_count (col : list cell) (b : cell) : Z :=
  mask_count (eq_mask col b).

Definition burst_amount (count : Z) : Z :=
  if 2 <? count then Z.min (20 * (count - 1)) 30 else 0.

Definition burst_of (col : list cell) (i : nat) : Z :=
  match col !! i with
  | Some (Some b) => burst_amount (txn_count col (Some b))
  | _ => 0
  end.

Definition burst (df : DataFrame) (i : nat) : Z :=
  match beneficiary_id df, timestamp df with
  | Some col, Some _ => burst_of col i
  | _, _ => 0
  end.

Definition account (df : DataFrame) (i : nat) : Z :=
  match account_number df with
  | Some col =>
      if mask_at (isin col (fst <$> counts_above 5 (value_counts col))) i
      then 25 else 0
  | None => 0
  end.

Definition round (df : DataFrame) (i : nat) : Z :=
  if mask_at (round_mask (amount df)) i then 15 else 0.

Definition total (df : DataFrame) (i : nat) : Z :=
  high df i + very_high df i + burst df i + account df i + round df i.

End Gain.

(** The integers [0 .. n-1]. *)
Definition upto (n : nat) : list Z := Z.of_nat <$> seq 0 n.

(** The rule scores that sums of the five contributions can reach. *)
Definition rule_scores_reached : list Z :=
  [0; 15; 25; 30; 40; 45; 55; 60; 65; 70; 75; 80; 85; 95; 100].

(** The weighted sum of the specification, in exact arithmetic. *)
Definition weighted_floor (rule ml : Z) : Z :=
  Qfloor (inject_Z rule * (6 # 10) + inject_Z ml * (4 # 10)).

Definition clamp (lo hi x : Z) : Z := Z.max lo (Z.min hi x).

(** The high-risk transactions and the total amount of a beneficiary. *)
Definition high_risk_of (col : list cell) (rs : list Z) (b : cell) : Z :=
  Duplicates.high_risk (select (eq_mask col b) rs).

Definition total_of (col : list cell) (amounts : list Q) (b : cell) : Q :=
  Qsum (select (eq_mask col b) amounts).

(** The alert of a beneficiary, as the specification describes it. *)
Definition alert_for (df : DataFrame) (col : list cell) (rs : list Z) (b : cell)
  : Alert :=
  {| Beneficiary_ID := b;
     Transaction_Count := Gain.txn_count col b;
     High_Risk_Txns := high_risk_of col rs b;
     Total_Amount := Format.rupees (total_of col (amount df) b);
     Alert_tag := Duplicates.tag |}.

(** ** Reading a rendered amount *)

Module Shown.








End Shown.

(** ** The rows of a beneficiary *)




Section RationalVocabulary.

Local Open Scope Q_scope.

(** The normalised score of the try block. *)
Definition normalized (anomaly_scores : list Q) (s : Q) : Q :=
  (s - Anomaly.Qlist_min anomaly_scores) /
  (Anomaly.Qlist_max anomaly_scores - Anomaly.Qlist_min anomaly_scores
   + (1 # 1000000)) * 100.

(** The interpolated value at a position of the sorted column. *)
Definition interpolate (s : list Q) (a0 : Q) (pos : Q) : Q :=
  let n := Z.of_nat (length s) in
  let lo := Qfloor pos in
  let hi := Z.min (lo + 1) (n - 1)%Z in
  nth (Z.to_nat lo) s a0
  + (nth (Z.to_nat hi) s a0 - nth (Z.to_nat lo) s a0) * (pos - inject_Z lo).

End RationalVocabulary.

(** ** Sample batches and forests *)

Module Sample.

(** A batch with the amount column only. *)
Definition amounts_only (amounts : list Q) : DataFrame :=
  {| amount := amounts; beneficiary_id := None; timestamp := None;
     account_number := None; scheme := None; region := None;
     duplicate_flag := None; risk_score := None; fraud_indicators := None;
     risk_level := None |}.

(** A forest whose fit raises. *)
Definition unfit : Features -> option (list Z * list Q) := fun _ => None.

(** A forest that calls every amount from 1500 an outlier and scores a
    row by the negated amount. *)
Definition by_amount : Features -> option (list Z * list Q) := fun X =>
  Some ((fun a => if Qle_bool 1500 a then -1 else 1) <$> feat_amount X,
        Qopp <$> feat_amount X).

Definition two_rows : DataFrame := amounts_only [1000%Q; 250%Q].

Definition five_rows : DataFrame :=
  amounts_only [1%Q; 5%Q; 3%Q; 2000%Q; 1800%Q].

(** The amounts 500 and 250 with a flag column whose first cell is false
    and whose second cell is blank. *)
Definition blank_flag : DataFrame :=
  {| amount := [500%Q; 250%Q]; beneficiary_id := None; timestamp := None;
     account_number := None; scheme := None; region := None;
     duplicate_flag := Some [Flag false; FlagNaN];
     risk_score := None; fraud_indicators := None; risk_level := None |}.

End Sample.

Module Burst.

(** Three transactions of one beneficiary, in a batch without timestamps. *)
Definition no_timestamp : DataFrame :=
  {| amount := [500%Q; 500%Q; 500%Q];
     beneficiary_id := Some [Some "B1"; Some "B1"; Some "B1"]%string;
     timestamp := None;
     account_number := None; scheme := None; region := None;
     duplicate_flag := None; risk_score := None; fraud_indicators := None;
     risk_level := None |}.

(** The same transactions with timestamps. *)
Definition with_timestamp : DataFrame :=
  {| amount := [500%Q; 500%Q; 500%Q];
     beneficiary_id := Some [Some "B1"; Some "B1"; Some "B1"]%string;
     timestamp := Some [0; 3600; 7200];
     account_number := None; scheme := None; region := None;
     duplicate_flag := None; risk_score := None; fraud_indicators := None;
     risk_level := None |}.

End Burst.

Module Dup.



End Dup.

Module Missing.

(** Three rows without a beneficiary, all with high risk scores, beside
    two rows of beneficiary A. *)
Definition batch : DataFrame :=
  {| amount := [10%Q; 20%Q; 30%Q; 40%Q; 50%Q];
     beneficiary_id := Some [None; None; None; Some "A"; Some "A"]%string;
     timestamp := Some [0; 1; 2; 3; 4];
     account_number := None; scheme := None; region := None;
     duplicate_flag := None;
     risk_score := Some [90; 95; 99; 60; 10];
     fraud_indicators := None; risk_level := None |}.

End Missing.

Module Raise.

(** Whether row [i] is above the batch's 99th percentile, and whether its
    amount is a multiple of 1000. *)
Definition above_q99 (df : DataFrame) (i : nat) : bool :=
  mask_at (gt_mask (amount df) (quantile (amount df) (99 # 100))) i.

Definition above_q95 (df : DataFrame) (i : nat) : bool :=
  mask_at (gt_mask (amount df) (quantile (amount df) (95 # 100))) i.

Definition is_round (df : DataFrame) (i : nat) : bool :=
  mask_at (round_mask (amount df)) i.

(** Six transactions of 1000 by one beneficiary on one account. *)
Definition crowded : DataFrame :=
  {| amount := replicate 6 1000%Q;
     beneficiary_id := Some (replicate 6 (Some "B1"%string));
     timestamp := Some [0; 1; 2; 3; 4; 5];
     account_number := Some (replicate 6 (Some "ACC1"%string));
     scheme := None; region := None;
     duplicate_flag := None; risk_score := None; fraud_indicators := None;
     risk_level := None |}.

(** Twenty-two amounts 1000, 2000, ..., 22000. *)
Definition ladder : DataFrame :=
  Sample.amounts_only ((fun k => inject_Z (1000 * (k + 1))) <$> upto 22).

End Raise.

(** ** Vocabulary and samples of the further properties *)

(** The order of the entries of [value_counts]: by descending count. *)
Definition by_count_desc (x y : cell * Z) : Prop := snd y <= snd x.

(** The frame with the values of its timestamp column replaced. *)
Definition set_timestamp (v : list Z) (df : DataFrame) : DataFrame :=
  {| amount := amount df; beneficiary_id := beneficiary_id df;
     timestamp := Some v; account_number := account_number df;
     scheme := scheme df; region := region df;
     duplicate_flag := duplicate_flag df;
     risk_score := risk_score df;
     fraud_indicators := fraud_indicators df; risk_level := risk_level df |}.

Module Badge.

(** The three badges of [risk_level]. *)
Definition low : string := "üü¢ Low".
Definition medium : string := "üü° Medium".
Definition high : string := "üî¥ High".

(** The rows of a column of badges that carry a given badge. *)
Definition count (badge : string) (levels : list string) : Z :=
  mask_count ((fun l => bool_decide (l = badge)) <$> levels).

End Badge.

Module Cases.

(** A scored batch in which beneficiary A has two transactions and B has
    three, each with a transaction of risk score 50 or more. *)
Definition two_alerts : DataFrame :=
  {| amount := [100%Q; 200%Q; 300%Q; 400%Q; 500%Q];
     beneficiary_id := Some [Some "A"; Some "B"; Some "A"; Some "B"; Some "B"]%string;
     timestamp := None; account_number := None; scheme := None; region := None;
     duplicate_flag := None;
     risk_score := Some [60; 70; 10; 20; 80];
     fraud_indicators := None; risk_level := None |}.

(** An unscored batch in which no beneficiary repeats. *)
Definition distinct_beneficiaries : DataFrame :=
  {| amount := [100%Q; 200%Q];
     beneficiary_id := Some [Some "A"; Some "B"]%string;
     timestamp := None; account_number := None; scheme := None; region := None;
     duplicate_flag := None; risk_score := None; fraud_indicators := None;
     risk_level := None |}.

(** A forest answer that calls every amount from 1500 an outlier and gives
    the largest amount the highest score. *)
Definition rising : Features -> option (list Z * list Q) := fun X =>
  Some ((fun a => if Qle_bool 1500 a then -1 else 1) <$> feat_amount X,
        feat_amount X).

(** A forest answer with scores between -1 and 0, as [score_samples]
    gives them: every amount from 1500 is an outlier, and a row is scored
    by its amount over 2000, negated. *)
Definition scaled : Features -> option (list Z * list Q) := fun X =>
  Some ((fun a => if Qle_bool 1500 a then -1 else 1) <$> feat_amount X,
        (fun a => - (a / 2000))%Q <$> feat_amount X).

(** A frame with scores on both sides of the two thresholds. *)
Definition mixed_scores : DataFrame :=
  {| amount := [10%Q; 20%Q; 30%Q; 40%Q; 50%Q; 60%Q];
     beneficiary_id := None; timestamp := None; account_number := None;
     scheme := None; region := None; duplicate_flag := None;
     risk_score := Some [0; 49; 50; 74; 75; 100];
     fraud_indicators := None;
     risk_level := Some (Fusion.level <$> [0; 49; 50; 74; 75; 100]) |}.

End Cases.

(** * Properties *)

(** ** Facts about the Series primitives *)

Section SeriesFacts.

Implicit Types (mask : list bool) (scores : list Z) (col : list cell).


Lemma add_where_length mask k scores :
  length (add_where mask k scores) = length scores.
Proof.
  revert mask; induction scores as [|s scores IH]; intros [|b mask]; simpl; auto.
Qed.

Lemma add_where_lookup mask k scores i :
  add_where mask k scores !! i =
  (fun s => if mask_at mask i then s + k else s) <$> scores !! i.
Proof.
  revert mask i; induction scores as [|s scores IH]; intros mask i.
  - destruct mask; reflexivity.
  - destruct mask as [|b mask].
    + unfold mask_at. by destruct i, (_ !! _).
    + destruct i as [|i]; [reflexivity|]. exact (IH mask i).
Qed.

Lemma clip_lookup lo hi scores i :
  clip lo hi scores !! i = (fun s => Z.max lo (Z.min hi s)) <$> scores !! i.
Proof. apply list_lookup_fmap. Qed.

Lemma clip_length lo hi scores : length (clip lo hi scores) = length scores.
Proof. apply length_fmap. Qed.

Lemma mask_count_nonneg mask : 0 <= mask_count mask.
Proof. induction mask as [|[] mask IH]; simpl; lia. Qed.

Lemma mask_at_eq_mask col v i :
  mask_at (eq_mask col v) i =
  match col !! i with Some c => cell_eq c v | None => false end.
Proof.
  unfold mask_at, eq_mask. rewrite list_lookup_fmap. by destruct (col !! i).
Qed.

Lemma cell_eq_true a b : cell_eq a b = true <-> a = b /\ is_Some a.
Proof.
  destruct a as [x|], b as [y|]; simpl; split;
    try (intros [? [? ?]]; congruence); try discriminate.
  - intros H%bool_decide_eq_true. subst; eauto.
  - intros [[= ->] _]. by apply bool_decide_eq_true.
Qed.

Lemma elem_of_unique col c : c ∈ unique col <-> c ∈ col.
Proof.
  induction col as [|x col IH]; simpl; [done|].
  rewrite !elem_of_cons, list_elem_of_filter, IH.
  destruct (decide (c = x)); naive_solver.
Qed.

Lemma NoDup_unique col : NoDup (unique col).
Proof.
  induction col as [|x col IH]; simpl; [constructor|].
  constructor; [|by apply NoDup_filter].
  rewrite list_elem_of_filter. naive_solver.
Qed.

End SeriesFacts.

(** ** RuleEvaluator: what each rule adds to a row *)

Section RuleFacts.

Implicit Types (df : DataFrame) (scores : list Z) (col : list cell).

Lemma high_amount_lookup df scores i :
  Rules.high_amount df scores !! i = (fun s => s + Gain.high df i) <$> scores !! i.
Proof.
  unfold Rules.high_amount, Gain.high. rewrite add_where_lookup.
  destruct (scores !! i); simpl; [|done]. destruct (mask_at _ _); f_equal; lia.
Qed.

Lemma very_high_amount_lookup df scores i :
  Rules.very_high_amount df scores !! i =
  (fun s => s + Gain.very_high df i) <$> scores !! i.
Proof.
  unfold Rules.very_high_amount, Gain.very_high. rewrite add_where_lookup.
  destruct (scores !! i); simpl; [|done]. destruct (mask_at _ _); f_equal; lia.
Qed.

(** One turn of the loop of rule 3 touches exactly the rows of its
    beneficiary. *)
Lemma burst_step_lookup col scores k i :
  Rules.burst_step col scores k !! i =
  (fun s => s + match col !! i with
                | Some c => if cell_eq c k
                            then Gain.burst_amount (Gain.txn_count col k) else 0
                | None => 0
                end) <$> scores !! i.
Proof.
  unfold Rules.burst_step, Gain.burst_amount, Gain.txn_count.
  destruct (2 <? mask_count (eq_mask col k)) eqn:Hn.
  - rewrite add_where_lookup, mask_at_eq_mask.
    destruct (scores !! i); simpl; [|done].
    destruct (col !! i) as [c|]; [destruct (cell_eq c k)|]; f_equal; lia.
  - destruct (scores !! i); simpl; [|done].
    destruct (col !! i) as [c|]; [destruct (cell_eq c k)|]; f_equal; lia.
Qed.

(** The whole loop over distinct keys: a row gains the amount of its own
    beneficiary when the loop visits it, and nothing otherwise. *)
Lemma burst_loop_lookup col keys scores i :
  NoDup keys ->
  fold_left (Rules.burst_step col) keys scores !! i =
  (fun s => s + match col !! i with
                | Some (Some b) =>
                    if bool_decide (Some b ∈ keys)
                    then Gain.burst_amount (Gain.txn_count col (Some b)) else 0
                | _ => 0
                end) <$> scores !! i.
Proof.
  intros Hnd. revert scores.
  induction Hnd as [|k keys Hk Hnd IH]; intros scores; simpl.
  - destruct (scores !! i); simpl; [|done].
    destruct (col !! i) as [[b|]|]; f_equal; lia.
  - rewrite IH, burst_step_lookup.
    destruct (scores !! i) as [s|]; simpl; [|done]. f_equal.
    destruct (col !! i) as [[b|]|]; simpl; [|lia..].
    destruct k as [x|]; simpl.
    + destruct (decide (b = x)) as [->|Hne].
      * rewrite (bool_decide_eq_true_2 (x = x)) by done.
        rewrite (bool_decide_eq_false_2 (Some x ∈ keys)) by done.
        rewrite (bool_decide_eq_true_2 (Some x ∈ Some x :: keys))
          by (apply elem_of_cons; auto).
        lia.
      * rewrite (bool_decide_eq_false_2 (b = x)) by done.
        rewrite (bool_decide_ext (Some b ∈ Some x :: keys) (Some b ∈ keys)).
        { lia. }
        rewrite elem_of_cons. naive_solver.
    + rewrite (bool_decide_ext (Some b ∈ None :: keys) (Some b ∈ keys)).
      { lia. }
      rewrite elem_of_cons. naive_solver.
Qed.

Lemma burst_lookup df scores i :
  Rules.burst df scores !! i = (fun s => s + Gain.burst df i) <$> scores !! i.
Proof.
  unfold Rules.burst, Gain.burst, Gain.burst_of.
  destruct (beneficiary_id df) as [col|], (timestamp df) as [ts|];
    try (destruct (scores !! i); simpl; [f_equal; lia|done]).
  rewrite burst_loop_lookup by apply NoDup_unique.
  destruct (scores !! i) as [s|]; simpl; [|done]. f_equal.
  destruct (col !! i) as [[b|]|] eqn:Hi; [|done..].
  rewrite bool_decide_eq_true_2; [done|].
  apply elem_of_unique, list_elem_of_lookup; eauto.
Qed.

Lemma account_lookup df scores i :
  Rules.account df scores !! i = (fun s => s + Gain.account df i) <$> scores !! i.
Proof.
  unfold Rules.account, Gain.account.
  destruct (account_number df) as [col|].
  - rewrite add_where_lookup.
    destruct (scores !! i); simpl; [|done]. destruct (mask_at _ _); f_equal; lia.
  - destruct (scores !! i); simpl; [f_equal; lia|done].
Qed.

Lemma round_amount_lookup df scores i :
  Rules.round_amount df scores !! i = (fun s => s + Gain.round df i) <$> scores !! i.
Proof.
  unfold Rules.round_amount, Gain.round.
  destruct (0 <? mask_count (round_mask (amount df))) eqn:Hn.
  - rewrite add_where_lookup.
    destruct (scores !! i); simpl; [|done]. destruct (mask_at _ _); f_equal; lia.
  - destruct (scores !! i); simpl; [|done]. f_equal.
    enough (mask_at (round_mask (amount df)) i = false) as -> by lia.
    apply Z.ltb_ge in Hn.
    unfold mask_at. destruct (round_mask (amount df) !! i) as [[]|] eqn:Hi; [|done..].
    exfalso. revert i Hi Hn. generalize (round_mask (amount df)) as m.
    induction m as [|b m IH]; intros [|i] Hi Hn; simpl in *; try done.
    + injection Hi as ->. pose proof (mask_count_nonneg m). lia.
    + apply (IH i Hi). pose proof (mask_count_nonneg m). destruct b; lia.
Qed.

(** The rule score of a row is the clamped sum of the five contributions. *)
Lemma apply_rules_lookup df i :
  (i < len df)%nat ->
  _apply_rules df !! i = Some (Z.max 0 (Z.min 100 (Gain.total df i))).
Proof.
  intros Hi. unfold _apply_rules.
  rewrite clip_lookup, round_amount_lookup, account_lookup, burst_lookup,
    very_high_amount_lookup, high_amount_lookup.
  unfold zeros. rewrite lookup_replicate_2 by done. simpl.
  unfold Gain.total. f_equal; lia.
Qed.

Lemma apply_rules_length df : length (_apply_rules df) = len df.
Proof.
  unfold _apply_rules, Rules.round_amount, Rules.account, Rules.burst,
    Rules.very_high_amount, Rules.high_amount.
  rewrite clip_length.
  assert (Hfold : forall col keys scores,
    length (fold_left (Rules.burst_step col) keys scores) = length scores).
  { intros col keys. induction keys as [|k keys IH]; intros scores; simpl; [done|].
    rewrite IH. unfold Rules.burst_step.
    destruct (2 <? _); [apply add_where_length|done]. }
  repeat first
    [ rewrite add_where_length | rewrite Hfold
    | match goal with |- context [if ?c then _ else _] => destruct c end
    | match goal with |- context [match ?c with Some _ => _ | None => _ end] =>
        destruct c end ];
  unfold zeros; apply length_replicate.
Qed.

End RuleFacts.

(** ** How a scoring call runs *)

Section Run.

Variable IsolationForest : Features -> option (list Z * list Q).

Local Abbreviation ml_detection := (_apply_ml_detection IsolationForest).

(** The columns a call computes from the copied frame. *)
Definition fused (d : DataFrame) : list Z :=
  Fusion.fuse_scores (_apply_rules d) (ml_values (ml_detection d)).

Definition explanations (d : DataFrame) (ml : list Z) : list string :=
  imap (fun name row =>
          _explain_fraud row
            (match _apply_rules d !! name with Some x => x | None => 0 end)
            (match ml !! name with Some x => x | None => 0 end))
       (rows d).

(** The annotated frame a completed call leaves behind its result. *)
Definition scored (d : DataFrame) (ml : list Z) : DataFrame :=
  set_risk_level (Fusion.level <$> fused d)
    (set_fraud_indicators (explanations (set_risk_score (fused d) d) ml)
       (set_risk_score (fused d) d)).

Lemma lookup_snoc (st : store) d : (st ++ [d]) !! length st = Some d.
Proof. by rewrite lookup_app_r, Nat.sub_diag. Qed.

Lemma insert_snoc (st : store) d d' : <[length st := d']> (st ++ [d]) = st ++ [d'].
Proof.
  rewrite insert_app_r_alt by done. by rewrite Nat.sub_diag.
Qed.

Lemma apply_axis1_series {A} (g : nat -> Row -> Z -> A) v rs k :
  apply_axis1_from
    (fun name row => ml_score ← get (SeriesOf v) name 0; Returns (g name row ml_score))
    k rs =
  Returns (imap (fun j row =>
                   g (k + j)%nat row (match v !! (k + j)%nat with Some x => x | None => 0 end))
                rs).
Proof.
  revert k; induction rs as [|r rs IH]; intros k; simpl; [done|].
  rewrite IH. simpl. rewrite Nat.add_0_r. do 2 f_equal.
  apply imap_ext. intros j x _. simpl. by rewrite Nat.add_succ_r.
Qed.

Lemma apply_axis1_ndarray {A} (g : nat -> Row -> Z -> A) v r rs k :
  apply_axis1_from
    (fun name row => ml_score ← get (NdArray v) name 0; Returns (g name row ml_score))
    k (r :: rs) =
  Raises AttributeError.
Proof. reflexivity. Qed.

Lemma rows_length d : length (rows d) = len d.
Proof. unfold rows. apply length_imap. Qed.

Lemma rows_set_risk_score v d : rows (set_risk_score v d) = rows d.
Proof. reflexivity. Qed.

(** The fit answers only for a frame with rows. *)
Lemma ml_detection_ndarray d v :
  ml_detection d = NdArray v -> len d <> 0%nat.
Proof.
  unfold _apply_ml_detection, fit_predict_scores. simpl.
  destruct (IsolationForest _) as [[p s]|]; [|discriminate].
  case_bool_decide as H; [|discriminate]. intros _. apply H.
Qed.

(** A call copies the frame, then either completes on the copy (the
    anomaly scores are a Series) or stops at the first row's explanation
    (they are an array). *)
Lemma detect_fraud_run st df d :
  st !! df = Some d ->
  detect_fraud IsolationForest df st =
  match ml_detection d with
  | SeriesOf ml => (st ++ [scored d ml], Returns (length st))
  | NdArray ml => (st ++ [set_risk_score (fused d) d], Raises AttributeError)
  end.
Proof.
  intros Hd. unfold detect_fraud, mbind, M_bind, mret, M_ret.
  unfold Store.copy at 1. rewrite Hd.
  unfold Store.deref at 1. rewrite lookup_snoc.
  unfold Store.setitem at 1. rewrite lookup_snoc, insert_snoc.
  unfold Store.deref at 1. rewrite lookup_snoc.
  unfold Store.lift at 1. unfold apply_axis1.
  destruct (ml_detection d) as [v|v] eqn:Hml.
  - pose proof (ml_detection_ndarray d v Hml) as Hlen.
    rewrite rows_set_risk_score.
    pose proof (rows_length d) as Hrows.
    destruct (rows d) as [|r rs]; [simpl in Hrows; congruence|].
    rewrite apply_axis1_ndarray. unfold fused. by rewrite Hml.
  - rewrite apply_axis1_series.
    unfold Store.setitem at 1. rewrite lookup_snoc, insert_snoc.
    unfold Store.deref at 1. rewrite lookup_snoc.
    unfold Store.lift. simpl.
    unfold Store.setitem. rewrite lookup_snoc, insert_snoc.
    unfold scored, explanations, fused. by rewrite Hml.
Qed.

End Run.

(** ** AnomalyScorer: masking and range *)

Section AnomalyFacts.

Local Open Scope Q_scope.

Lemma Qclip_range x : 0 <= Anomaly.Qclip 0 100 x /\ Anomaly.Qclip 0 100 x <= 100.
Proof.
  unfold Anomaly.Qclip. split.
  - apply Q.le_max_l.
  - apply Q.max_lub; [discriminate|apply Q.le_min_l].
Qed.

Lemma Qtruncate_range x :
  0 <= x -> x <= 100 -> (0 <= Anomaly.Qtruncate x <= 100)%Z.
Proof.
  destruct x as [n d]. unfold Qle, Anomaly.Qtruncate; simpl. intros H0 H100.
  rewrite Z.quot_div_nonneg by lia. split.
  - apply Z.div_pos; lia.
  - apply Z.div_le_upper_bound; lia.
Qed.

Lemma Qtruncate_zero x : x == 0 -> Anomaly.Qtruncate x = 0%Z.
Proof.
  destruct x as [n d]. unfold Qeq, Anomaly.Qtruncate; simpl. intros H.
  replace n with 0%Z by lia. apply Z.quot_0_l. lia.
Qed.

Lemma Qclip_zero x : x == 0 -> Anomaly.Qclip 0 100 x == 0.
Proof.
  intros Hx. unfold Anomaly.Qclip.
  rewrite Q.min_r by (rewrite Hx; discriminate).
  rewrite Q.max_r by (rewrite Hx; apply Qle_refl). exact Hx.
Qed.


Lemma masked_scores_lookup predictions anomaly_scores i :
  Anomaly.masked_scores predictions anomaly_scores !! i =
  match anomaly_scores !! i, predictions !! i with
  | Some s, Some p =>
      Some (Anomaly.Qtruncate
              (Anomaly.Qclip 0 100
                 (Qabs (normalized anomaly_scores s * Anomaly.outlier_flag p))))
  | _, _ => None
  end.
Proof.
  unfold Anomaly.masked_scores.
  rewrite list_lookup_fmap, lookup_zip_with, list_lookup_fmap.
  destruct (anomaly_scores !! i) as [s|]; simpl; [|done].
  by destruct (predictions !! i).
Qed.

Lemma masked_scores_length predictions anomaly_scores :
  length predictions = length anomaly_scores ->
  length (Anomaly.masked_scores predictions anomaly_scores) = length anomaly_scores.
Proof.
  intros H. unfold Anomaly.masked_scores.
  rewrite length_fmap, length_zip_with, length_fmap. lia.
Qed.

Lemma masked_scores_range predictions anomaly_scores i m :
  Anomaly.masked_scores predictions anomaly_scores !! i = Some m ->
  (0 <= m <= 100)%Z.
Proof.
  rewrite masked_scores_lookup.
  destruct (anomaly_scores !! i), (predictions !! i); try discriminate.
  intros [= <-]. apply Qtruncate_range; apply Qclip_range.
Qed.


End AnomalyFacts.

(** ** ScoreFuser: the binary64 evaluation on the scores that occur *)

Section FusionFacts.


Lemma elem_of_upto n z : 0 <= z < Z.of_nat n -> z ∈ upto n.
Proof.
  intros Hz. unfold upto. apply list_elem_of_fmap.
  exists (Z.to_nat z). split; [lia|]. apply elem_of_seq. lia.
Qed.


Lemma weighted_floor_div rule ml : weighted_floor rule ml = (6 * rule + 4 * ml) / 10.
Proof.
  unfold weighted_floor, Qfloor, Qplus, Qmult, inject_Z; simpl.
  change (Z.pos (1 * 10 * (1 * 10))) with (10 * 10)%Z.
  change (Z.pos (1 * 10)) with 10%Z.
  replace (rule * 6 * 10 + ml * 4 * 10)%Z with ((6 * rule + 4 * ml) * 10)%Z by lia.
  apply Z.div_mul_cancel_r; lia.
Qed.

Lemma fuse_range_checked :
  forallb (fun r => forallb (fun m => (0 <=? Fusion.fuse r m) && (Fusion.fuse r m <=? 100))
                      (upto 101)) (upto 101) = true.
Proof. vm_compute. reflexivity. Qed.

Lemma fuse_exact_checked :
  forallb (fun r => forallb (fun m => Fusion.fuse r m =? (6 * r + 4 * m) / 10)
                      (upto 101)) rule_scores_reached = true.
Proof. vm_compute. reflexivity. Qed.

Lemma fuse_range r m :
  0 <= r <= 100 -> 0 <= m <= 100 -> 0 <= Fusion.fuse r m <= 100.
Proof.
  intros Hr Hm. pose proof fuse_range_checked as H.
  rewrite forallb_forall in H.
  specialize (H r (proj1 (list_elem_of_In _ _) (elem_of_upto 101 r ltac:(lia)))).
  rewrite forallb_forall in H.
  specialize (H m (proj1 (list_elem_of_In _ _) (elem_of_upto 101 m ltac:(lia)))).
  lia.
Qed.

(** On a reachable rule score the binary64 result is the exact floor. *)
Lemma fuse_exact r m :
  r ∈ rule_scores_reached -> 0 <= m <= 100 ->
  Fusion.fuse r m = weighted_floor r m.
Proof.
  intros Hr Hm. pose proof fuse_exact_checked as H.
  rewrite forallb_forall in H.
  specialize (H r (proj1 (list_elem_of_In _ _) Hr)).
  rewrite forallb_forall in H.
  specialize (H m (proj1 (list_elem_of_In _ _) (elem_of_upto 101 m ltac:(lia)))).
  rewrite weighted_floor_div. lia.
Qed.

(** Binary64 and exact arithmetic part ways elsewhere: 6 * 0.6 + 1 * 0.4
    evaluates below 4. *)
Lemma fuse_inexact_elsewhere : Fusion.fuse 6 1 = 3 /\ weighted_floor 6 1 = 4.
Proof. split; vm_compute; reflexivity. Qed.

Lemma burst_amount_cases n :
  Gain.burst_amount n = 0 \/ Gain.burst_amount n = 30.
Proof. unfold Gain.burst_amount. destruct (2 <? n) eqn:H; lia. Qed.

(** Each rule adds its constant or nothing. *)
Lemma gain_cases df i :
  (Gain.high df i = 0 \/ Gain.high df i = 30) /\
  (Gain.very_high df i = 0 \/ Gain.very_high df i = 40) /\
  (Gain.burst df i = 0 \/ Gain.burst df i = 30) /\
  (Gain.account df i = 0 \/ Gain.account df i = 25) /\
  (Gain.round df i = 0 \/ Gain.round df i = 15).
Proof.
  unfold Gain.high, Gain.very_high, Gain.account, Gain.round, Gain.burst,
    Gain.burst_of.
  repeat split.
  - destruct (mask_at _ i); auto.
  - destruct (mask_at _ i); auto.
  - destruct (beneficiary_id df) as [col|], (timestamp df); auto.
    destruct (col !! i) as [[b|]|]; auto using burst_amount_cases.
  - destruct (account_number df); auto. destruct (mask_at _ i); auto.
  - destruct (mask_at _ i); auto.
Qed.

Lemma rule_score_reached df i r :
  _apply_rules df !! i = Some r -> r ∈ rule_scores_reached.
Proof.
  intros Hr.
  assert (Hi : (i < len df)%nat).
  { rewrite <- apply_rules_length. eapply lookup_lt_Some, Hr. }
  rewrite apply_rules_lookup in Hr by done. injection Hr as <-.
  pose proof (gain_cases df i) as (H1 & H2 & H3 & H4 & H5).
  unfold Gain.total, rule_scores_reached. rewrite !elem_of_cons. lia.
Qed.

Lemma rule_score_range df i r :
  _apply_rules df !! i = Some r -> 0 <= r <= 100.
Proof.
  intros Hr.
  assert (Hi : (i < len df)%nat).
  { rewrite <- apply_rules_length. eapply lookup_lt_Some, Hr. }
  rewrite apply_rules_lookup in Hr by done. injection Hr as <-. lia.
Qed.

End FusionFacts.


(** ** The claims on scoring *)

Section Scoring.

Variable IsolationForest : Features -> option (list Z * list Q).

Local Abbreviation ml_detection := (_apply_ml_detection IsolationForest).
Local Abbreviation risk_scores := (fused IsolationForest).

Lemma ml_detection_series d v :
  ml_detection d = SeriesOf v -> v = zeros (len d).
Proof.
  unfold _apply_ml_detection.
  destruct (fit_predict_scores _ _) as [[p s]|]; [discriminate|]. by intros [= <-].
Qed.

Lemma ml_values_length d : length (ml_values (ml_detection d)) = len d.
Proof.
  unfold _apply_ml_detection, fit_predict_scores.
  destruct (IsolationForest _) as [[p s]|]; simpl.
  - case_bool_decide as H; simpl.
    + destruct H as (_ & Hp & Hs). unfold len.
      rewrite masked_scores_length; congruence.
    + unfold zeros. apply length_replicate.
  - unfold zeros. apply length_replicate.
Qed.

Lemma ml_values_range d i m :
  ml_values (ml_detection d) !! i = Some m -> 0 <= m <= 100.
Proof.
  unfold _apply_ml_detection.
  destruct (fit_predict_scores _ _) as [[p s]|]; simpl.
  - apply masked_scores_range.
  - unfold zeros. intros [-> _]%lookup_replicate. lia.
Qed.

Lemma risk_scores_length d : length (risk_scores d) = len d.
Proof.
  unfold fused, Fusion.fuse_scores.
  rewrite length_zip_with, apply_rules_length, ml_values_length. lia.
Qed.

Lemma risk_scores_lookup d i :
  risk_scores d !! i =
  match _apply_rules d !! i, ml_values (ml_detection d) !! i with
  | Some r, Some m => Some (Fusion.fuse r m)
  | _, _ => None
  end.
Proof.
  unfold fused, Fusion.fuse_scores. rewrite lookup_zip_with.
  destruct (_apply_rules d !! i); simpl; [|done]. by destruct (_ !! i).
Qed.

Lemma risk_scores_range d i x : risk_scores d !! i = Some x -> 0 <= x <= 100.
Proof.
  rewrite risk_scores_lookup.
  destruct (_apply_rules d !! i) as [r|] eqn:Hr; [|discriminate].
  destruct (ml_values _ !! i) as [m|] eqn:Hm; [|discriminate].
  intros [= <-]. apply fuse_range; eauto using rule_score_range, ml_values_range.
Qed.

(** What a call that returns leaves in the store. *)
Lemma detect_fraud_returns st df st' results :
  detect_fraud IsolationForest df st = (st', Returns results) ->
  exists d, st !! df = Some d /\
            ml_detection d = SeriesOf (zeros (len d)) /\
            st' = st ++ [scored IsolationForest d (zeros (len d))] /\
            results = length st.
Proof.
  intros Hrun. destruct (st !! df) as [d|] eqn:Hd.
  - rewrite (detect_fraud_run _ _ _ _ Hd) in Hrun. exists d.
    destruct (ml_detection d) as [v|v] eqn:Hml; [discriminate|].
    pose proof (ml_detection_series _ _ Hml) as ->. by injection Hrun as <- <-.
  - unfold detect_fraud, mbind, M_bind, Store.copy in Hrun.
    rewrite Hd in Hrun. discriminate.
Qed.

(** C1: the risk score a call assigns to a row is an integer between 0 and
    100, and the risk level of the row is read off that score by the fixed
    thresholds (Low below 50, Medium from 50 and below 75, High from 75);
    these are the [risk_score] and [risk_level] columns of the frame a call
    returns, one entry per row of the batch. *)
Theorem risk_score_in_range_and_level_by_threshold d :
  (forall i x, risk_scores d !! i = Some x ->
     0 <= x <= 100 /\
     exists lv, (Fusion.level <$> risk_scores d) !! i = Some lv /\
       (x < 50 -> lv = "üü¢ Low"%string) /\
       (50 <= x < 75 -> lv = "üü° Medium"%string) /\
       (75 <= x -> lv = "üî¥ High"%string)) /\
  (forall st df st' results,
     st !! df = Some d ->
     detect_fraud IsolationForest df st = (st', Returns results) ->
     exists out,
       st' !! results = Some out /\
       len out = len d /\
       risk_score out = Some (risk_scores d) /\
       risk_level out = Some (Fusion.level <$> risk_scores d) /\
       length (risk_scores d) = len d).
Proof.
  split.
  - intros i x Hx. split; [by eapply risk_scores_range|].
    exists (Fusion.level x). rewrite list_lookup_fmap, Hx. split; [done|].
    unfold Fusion.level. repeat split; intros H.
    + by rewrite (proj2 (Z.ltb_lt x 50)) by lia.
    + rewrite (proj2 (Z.ltb_ge x 50)) by lia.
      by rewrite (proj2 (Z.ltb_lt x 75)) by lia.
    + rewrite (proj2 (Z.ltb_ge x 50)) by lia.
      by rewrite (proj2 (Z.ltb_ge x 75)) by lia.
  - intros st df st' results Hd Hrun.
    destruct (detect_fraud_returns _ _ _ _ Hrun) as (d' & Hd' & Hml & -> & ->).
    assert (d' = d) as -> by congruence.
    eexists. split; [apply lookup_snoc|].
    repeat split. apply risk_scores_length.
Qed.

(** C2: the risk score of a row is floor(rule_score * 0.6 + anomaly_score
    * 0.4) clamped into [0,100], for the rule score [_apply_rules] and the
    anomaly score [_apply_ml_detection] give that row: the binary64
    evaluation of the source agrees with the exact floor on every pair of
    scores that occurs.  This column is the [risk_score] of the frame a call
    returns. *)
Theorem risk_score_is_clamped_weighted_floor d :
  (forall i r m,
     _apply_rules d !! i = Some r ->
     ml_values (ml_detection d) !! i = Some m ->
     risk_scores d !! i = Some (clamp 0 100 (weighted_floor r m))) /\
  (forall st df st' results,
     st !! df = Some d ->
     detect_fraud IsolationForest df st = (st', Returns results) ->
     exists out, st' !! results = Some out /\ risk_score out = Some (risk_scores d)).
Proof.
  split.
  - intros i r m Hr Hm. rewrite risk_scores_lookup, Hr, Hm. f_equal.
    pose proof (rule_score_range _ _ _ Hr) as Hr'.
    pose proof (ml_values_range _ _ _ Hm) as Hm'.
    rewrite fuse_exact by eauto using rule_score_reached.
    unfold clamp. rewrite weighted_floor_div.
    assert (0 <= (6 * r + 4 * m) / 10) by (apply Z.div_pos; lia).
    assert ((6 * r + 4 * m) / 10 <= 100) by (apply Z.div_le_upper_bound; lia).
    lia.
  - intros st df st' results Hd Hrun.
    destruct (detect_fraud_returns _ _ _ _ Hrun) as (d' & Hd' & Hml & -> & ->).
    assert (d' = d) as -> by congruence.
    eexists. split; [apply lookup_snoc|done].
Qed.



(** A forest that raises is a failed fit; so is an empty batch. *)
Lemma fit_failure_cases X :
  IsolationForest X = None \/ feat_amount X = [] ->
  fit_predict_scores IsolationForest X = None.
Proof.
  unfold fit_predict_scores. intros [-> | HX]; [done|].
  destruct (IsolationForest X) as [[p s]|]; [|done].
  rewrite bool_decide_eq_false_2; [done|]. rewrite HX. simpl. tauto.
Qed.

(** C7: when fitting the anomaly model fails, the anomaly score of every
    row is 0 and the call still returns: no exception reaches the caller,
    and the risk score of a row is the weighted floor of its rule score
    alone. *)
Theorem fit_failure_scores_by_rules_alone st df d :
  st !! df = Some d ->
  fit_predict_scores IsolationForest (Anomaly.features d) = None ->
  ml_detection d = SeriesOf (zeros (len d)) /\
  (forall i, (i < len d)%nat -> ml_values (ml_detection d) !! i = Some 0) /\
  exists out scores,
    detect_fraud IsolationForest df st = (st ++ [out], Returns (length st)) /\
    len out = len d /\
    risk_score out = Some scores /\ length scores = len d /\
    forall i r, _apply_rules d !! i = Some r ->
                scores !! i = Some (weighted_floor r 0).
Proof.
  intros Hd Hfit.
  assert (Hml : ml_detection d = SeriesOf (zeros (len d))).
  { unfold _apply_ml_detection. by rewrite Hfit. }
  split; [done|]. split.
  { intros i Hi. rewrite Hml. simpl. unfold zeros. by apply lookup_replicate_2. }
  exists (scored IsolationForest d (zeros (len d))), (risk_scores d).
  split; [by rewrite (detect_fraud_run _ _ _ _ Hd), Hml|].
  split; [done|]. split; [done|]. split; [apply risk_scores_length|].
  intros i r Hr.
  assert (Hi : (i < len d)%nat).
  { rewrite <- apply_rules_length. eapply lookup_lt_Some, Hr. }
  assert (Hm : ml_values (ml_detection d) !! i = Some 0).
  { rewrite Hml. simpl. unfold zeros. by apply lookup_replicate_2. }
  rewrite risk_scores_lookup, Hr, Hm. f_equal.
  apply fuse_exact; [eauto using rule_score_reached|lia].
Qed.

(** A call never changes an object that was in the store before it, the
    batch it was given included. *)
Lemma detect_fraud_preserves_store st df st' o :
  detect_fraud IsolationForest df st = (st', o) ->
  forall l d, st !! l = Some d -> st' !! l = Some d.
Proof.
  intros Hrun l d' Hl. destruct (st !! df) as [d|] eqn:Hd.
  - rewrite (detect_fraud_run _ _ _ _ Hd) in Hrun.
    destruct (ml_detection d); injection Hrun as <- _;
      by apply lookup_app_l_Some.
  - unfold detect_fraud, mbind, M_bind, Store.copy in Hrun.
    rewrite Hd in Hrun. by injection Hrun as <- _.
Qed.

(** Once the forest has been fitted the call raises: the anomaly scores
    are an array, and the explanation of the first row asks it for [get]. *)
Lemma detect_fraud_raises_when_fitted st df d predictions anomaly_scores :
  st !! df = Some d ->
  fit_predict_scores IsolationForest (Anomaly.features d)
    = Some (predictions, anomaly_scores) ->
  detect_fraud IsolationForest df st
  = (st ++ [set_risk_score (risk_scores d) d], Raises AttributeError).
Proof.
  intros Hd Hfit. rewrite (detect_fraud_run _ _ _ _ Hd).
  unfold _apply_ml_detection. by rewrite Hfit.
Qed.

End Scoring.

(** ** ExplanationGenerator: the reasons and their order *)

Section Explanations.

Local Open Scope Q_scope.

Lemma Qlt_bool_iff x y : Qlt_bool x y = true <-> x < y.
Proof.
  unfold Qlt_bool. rewrite negb_true_iff. split.
  - intros H. apply Qnot_le_lt. intros Hle.
    apply Qle_bool_iff in Hle. congruence.
  - intros H. destruct (Qle_bool y x) eqn:Hle; [|done].
    apply Qle_bool_iff in Hle. exfalso. by apply (Qlt_not_le x y).
Qed.

(** The amount is an exact multiple of 1000. *)
Definition multiple_of_1000 (a : Q) : Prop :=
  exists k : Z, a == inject_Z (1000 * k).

Lemma round_test_iff a : Qeq_bool (Qmod a 1000) 0 = true <-> multiple_of_1000 a.
Proof.
  rewrite Qeq_bool_iff. unfold Qmod, multiple_of_1000. split.
  - intros H. exists (Qfloor (a / 1000)). rewrite inject_Z_mult.
    change (inject_Z 1000) with 1000. lra.
  - intros [k Hk].
    assert (Hq : a / 1000 == inject_Z k).
    { rewrite Hk, inject_Z_mult. change (inject_Z 1000) with 1000. field. }
    rewrite Hq, Qfloor_Z, Hk, inject_Z_mult.
    change (inject_Z 1000) with 1000. lra.
Qed.

#[local] Instance Qlt_decision x y : Decision (x < y).
Proof.
  destruct (Qlt_bool x y) eqn:H.
  - left. by apply Qlt_bool_iff.
  - right. intros Hlt%Qlt_bool_iff. congruence.
Defined.

#[local] Instance multiple_of_1000_decision a : Decision (multiple_of_1000 a).
Proof.
  destruct (Qeq_bool (Qmod a 1000) 0) eqn:H.
  - left. by apply round_test_iff.
  - right. intros Hm%round_test_iff. congruence.
Defined.

(** One reason, present when its condition holds. *)
Definition reason_if (P : Prop) `{Decision P} (r : string) : list string :=
  if decide P then [r] else [].

(** The reasons of a row as the specification lists them: each condition
    in the fixed order, by its meaning. *)
Definition reasons_in_order (row : Row) (ml_score : Z) : list string :=
  let a := row_amount row in
  reason_if (100000 < a) (Explain.high_amount a) ++
  reason_if (row_duplicate_flag row = Some (Flag true)) Explain.duplicate ++
  reason_if (row_scheme row = Some (Some "NREGA"%string) /\ 50000 < a)
    Explain.nrega ++
  reason_if (row_scheme row = Some (Some "PDS"%string) /\ 10000 < a)
    Explain.pds ++
  reason_if (40 < ml_score)%Z Explain.ml_anomaly ++
  reason_if (multiple_of_1000 a) Explain.round_amount.

Definition indicators_spec (row : Row) (ml_score : Z) : list string :=
  match reasons_in_order row ml_score with
  | [] => [Explain.low_anomaly]
  | l => l
  end.

(** The row as [_explain_fraud] reads it: of a flag cell it sees the truth
    value only, and a missing cell is true. *)
Definition as_python_reads (row : Row) : Row :=
  {| row_amount := row_amount row;
     row_scheme := row_scheme row;
     row_duplicate_flag := (fun c => Flag (truthy c)) <$> row_duplicate_flag row |}.

Lemma Qlt_bool_decide x y : Qlt_bool x y = bool_decide (x < y).
Proof.
  destruct (Qlt_bool x y) eqn:H; symmetry.
  - by apply bool_decide_eq_true, Qlt_bool_iff.
  - apply bool_decide_eq_false. intros Hlt%Qlt_bool_iff. congruence.
Qed.

Lemma round_test_decide a :
  Qeq_bool (Qmod a 1000) 0 = bool_decide (multiple_of_1000 a).
Proof.
  destruct (Qeq_bool _ _) eqn:H; symmetry.
  - by apply bool_decide_eq_true, round_test_iff.
  - apply bool_decide_eq_false. intros Hm%round_test_iff. congruence.
Qed.

Lemma flagged_decide row :
  Explain.flagged row
  = bool_decide (row_duplicate_flag (as_python_reads row) = Some (Flag true)).
Proof.
  unfold Explain.flagged, as_python_reads. simpl.
  by destruct (row_duplicate_flag row) as [[[]|]|].
Qed.

Lemma as_python_reads_present row :
  row_duplicate_flag row <> Some FlagNaN -> as_python_reads row = row.
Proof.
  destruct row as [a s [[b|]|]]; unfold as_python_reads; simpl; try done.
Qed.

Lemma scheme_is_decide row name :
  Explain.scheme_is row name = bool_decide (row_scheme row = Some (Some name)).
Proof.
  unfold Explain.scheme_is. destruct (row_scheme row) as [[x|]|]; simpl; try done.
  apply bool_decide_ext. naive_solver.
Qed.

Lemma append_if_decide (P : Prop) `{Decision P} r reasons :
  Explain.append_if (bool_decide P) r reasons = reasons ++ reason_if P r.
Proof.
  unfold Explain.append_if, reason_if, bool_decide, decide.
  destruct H; [done|by rewrite app_nil_r].
Qed.

(** The list the code builds is the specification's list for the row as
    Python reads it. *)
Lemma reasons_read row rule_score ml_score :
  Explain.reasons row rule_score ml_score
  = indicators_spec (as_python_reads row) ml_score.
Proof.
  unfold Explain.reasons, indicators_spec, reasons_in_order.
  change (row_amount (as_python_reads row)) with (row_amount row).
  change (row_scheme (as_python_reads row)) with (row_scheme row).
  rewrite !Qlt_bool_decide, round_test_decide, flagged_decide, !scheme_is_decide.
  rewrite <- !bool_decide_and.
  assert ((40 <? ml_score)%Z = bool_decide (40 < ml_score)%Z) as ->.
  { destruct (Z.ltb_spec 40 ml_score).
    - by rewrite bool_decide_eq_true_2.
    - rewrite bool_decide_eq_false_2; [done|lia]. }
  rewrite !append_if_decide, app_nil_l, <- !app_assoc.
  by destruct (_ ++ _).
Qed.

(** For a row whose flag cell is not missing it is the specification's
    list of the row itself. *)
Lemma reasons_refine row rule_score ml_score :
  row_duplicate_flag row <> Some FlagNaN ->
  Explain.reasons row rule_score ml_score = indicators_spec row ml_score.
Proof.
  intros Hflag. by rewrite reasons_read, as_python_reads_present.
Qed.

Lemma elem_of_append_if c r (l : list string) x :
  x ∈ Explain.append_if c r l <-> x ∈ l \/ (c = true /\ x = r).
Proof.
  unfold Explain.append_if. destruct c.
  - rewrite elem_of_app, list_elem_of_singleton. naive_solver.
  - naive_solver.
Qed.

Lemma elem_of_reason_if (P : Prop) `{Decision P} r x :
  x ∈ reason_if P r <-> P /\ x = r.
Proof.
  unfold reason_if. destruct (decide P).
  - rewrite list_elem_of_singleton. naive_solver.
  - rewrite elem_of_nil. naive_solver.
Qed.

Lemma duplicate_reason_is_no_other a :
  Explain.duplicate <> Explain.high_amount a /\
  Explain.duplicate <> Explain.nrega /\
  Explain.duplicate <> Explain.pds /\
  Explain.duplicate <> Explain.ml_anomaly /\
  Explain.duplicate <> Explain.round_amount /\
  Explain.duplicate <> Explain.low_anomaly.
Proof.
  unfold Explain.high_amount. cbn [String.append Explain.duplicate].
  repeat split; discriminate.
Qed.

(** The code lists the duplicate reason exactly for a flag cell that
    Python finds true. *)
Lemma duplicate_reason_iff row rule_score ml_score :
  Explain.duplicate ∈ Explain.reasons row rule_score ml_score <->
  Explain.flagged row = true.
Proof.
  destruct (duplicate_reason_is_no_other (row_amount row))
    as (H1 & H2 & H3 & H4 & H5 & H6).
  unfold Explain.reasons.
  match goal with
  | |- _ ∈ match ?l with [] => _ | _ :: _ => _ end <-> _ => set (L := l)
  end.
  assert (HL : Explain.duplicate ∈ L <-> Explain.flagged row = true).
  { subst L. rewrite !elem_of_append_if, elem_of_nil. naive_solver. }
  destruct L as [|y l].
  - rewrite list_elem_of_singleton. split; [done|].
    intros Ht. apply HL in Ht. by apply elem_of_nil in Ht.
  - exact HL.
Qed.

(** The specification lists it exactly for a flag that is present and
    set. *)
Lemma duplicate_reason_spec_iff row ml_score :
  Explain.duplicate ∈ indicators_spec row ml_score <->
  row_duplicate_flag row = Some (Flag true).
Proof.
  destruct (duplicate_reason_is_no_other (row_amount row))
    as (H1 & H2 & H3 & H4 & H5 & H6).
  assert (HL : Explain.duplicate ∈ reasons_in_order row ml_score <->
               row_duplicate_flag row = Some (Flag true)).
  { unfold reasons_in_order. rewrite !elem_of_app, !elem_of_reason_if.
    naive_solver. }
  unfold indicators_spec. destruct (reasons_in_order row ml_score) as [|y l].
  - rewrite list_elem_of_singleton. split; [done|].
    intros Ht. apply HL in Ht. by apply elem_of_nil in Ht.
  - exact HL.
Qed.

Lemma indicators_spec_nonempty row ml_score : indicators_spec row ml_score <> [].
Proof. unfold indicators_spec. by destruct (reasons_in_order _ _). Qed.

Lemma reason_if_sublist (P : Prop) `{Decision P} r : reason_if P r `sublist_of` [r].
Proof. unfold reason_if. destruct (decide P); [done|apply sublist_nil_l]. Qed.

(** The reasons that hold keep the order of the full list. *)
Lemma reasons_in_order_sublist row ml_score :
  reasons_in_order row ml_score `sublist_of`
  [Explain.high_amount (row_amount row); Explain.duplicate; Explain.nrega;
   Explain.pds; Explain.ml_anomaly; Explain.round_amount].
Proof.
  unfold reasons_in_order.
  repeat (apply (sublist_app _ [_] _ _); [apply reason_if_sublist|]).
  apply reason_if_sublist.
Qed.

End Explanations.

Section ExplanationClaim.

Variable IsolationForest : Features -> option (list Z * list Q).

(** C6: [_explain_fraud] tests the duplicate flag of a row by its truth
    value, and Python finds a missing cell (NaN) true: a row whose flag is
    missing gets the duplicate reason, which the list of the claim, with
    its condition "present and set", does not hold.  For every other row
    the reasons are those of the claim: each reason of the fixed list
    whose condition holds, in the order of that list (amount above
    100,000; duplicate flag present and set; scheme NREGA with amount above
    50,000, then scheme PDS with amount above 10,000; anomaly score above
    40; amount an exact multiple of 1000), and the single default reason
    when none holds.  For every row the list is not empty and keeps the
    fixed order, and [_explain_fraud] joins it with newlines.  In the frame
    a call returns, the entry of a row is built from the cells of that
    row in the amount, scheme and flag columns and from the row's own
    anomaly score. *)
Theorem missing_duplicate_flag_is_explained_as_set :
  (forall row rule_score ml_score,
     row_duplicate_flag row = Some FlagNaN ->
     Explain.duplicate ∈ Explain.reasons row rule_score ml_score /\
     Explain.duplicate ∉ indicators_spec row ml_score) /\
  (forall row rule_score ml_score,
     row_duplicate_flag row <> Some FlagNaN ->
     Explain.reasons row rule_score ml_score = indicators_spec row ml_score /\
     _explain_fraud row rule_score ml_score
     = String.concat Explain.newline (indicators_spec row ml_score) /\
     reasons_in_order row ml_score `sublist_of`
     [Explain.high_amount (row_amount row); Explain.duplicate; Explain.nrega;
      Explain.pds; Explain.ml_anomaly; Explain.round_amount]) /\
  (forall row rule_score ml_score,
     Explain.reasons row rule_score ml_score <> [] /\
     (Explain.reasons row rule_score ml_score = [Explain.low_anomaly] \/
      Explain.reasons row rule_score ml_score `sublist_of`
      [Explain.high_amount (row_amount row); Explain.duplicate; Explain.nrega;
       Explain.pds; Explain.ml_anomaly; Explain.round_amount])) /\
  (forall st df d st' results,
     st !! df = Some d ->
     detect_fraud IsolationForest df st = (st', Returns results) ->
     exists out inds,
       st' !! results = Some out /\
       fraud_indicators out = Some inds /\
       length inds = len d /\
       forall i a rule_score, amount d !! i = Some a ->
         exists m,
           ml_values (_apply_ml_detection IsolationForest d) !! i = Some m /\
           inds !! i
           = Some (_explain_fraud
                     {| row_amount := a;
                        row_scheme := col ← scheme d; col !! i;
                        row_duplicate_flag := col ← duplicate_flag d; col !! i |}
                     rule_score m)).
Proof.
  split; [|split; [|split]].
  - intros row rule_score ml_score Hflag. split.
    + apply duplicate_reason_iff. unfold Explain.flagged. by rewrite Hflag.
    + rewrite duplicate_reason_spec_iff, Hflag. discriminate.
  - intros row rule_score ml_score Hflag. unfold _explain_fraud.
    rewrite reasons_refine by done.
    auto using reasons_in_order_sublist.
  - intros row rule_score ml_score. rewrite reasons_read.
    split; [apply indicators_spec_nonempty|].
    pose proof (reasons_in_order_sublist (as_python_reads row) ml_score) as Hsub.
    unfold indicators_spec.
    destruct (reasons_in_order (as_python_reads row) ml_score); [by left|by right].
  - intros st df d st' results Hd Hrun.
    destruct (detect_fraud_returns _ _ _ _ _ Hrun) as (d' & Hd' & Hml & -> & ->).
    assert (d' = d) as -> by congruence.
    eexists _, _. split; [apply lookup_snoc|]. split; [reflexivity|].
    unfold explanations. rewrite rows_set_risk_score. split.
    + rewrite length_imap. apply rows_length.
    + intros i a rule_score Ha. exists 0%Z.
      assert (Hi : (i < len d)%nat) by (eapply lookup_lt_Some, Ha).
      assert (Hz : zeros (len d) !! i = Some 0%Z).
      { unfold zeros. by apply lookup_replicate_2. }
      rewrite Hml. simpl. split; [done|].
      unfold rows. rewrite list_lookup_imap, list_lookup_imap, Ha. simpl.
      by rewrite Hz.
Qed.

End ExplanationClaim.

(** ** The burst-by-beneficiary rule *)


(** C4 (as amended): in a batch that has both the beneficiary and the
    timestamp column, each transaction of a beneficiary with more than 2
    transactions gains min(20 * (count - 1), 30) from the burst rule, and
    its rule score is the clamped sum with that gain; without either column
    the burst rule, and without the account column the account rule, is
    skipped and leaves every score as it was. *)
Theorem burst_rule_gain_with_timestamps df scores :
  (forall col ts i b s,
     beneficiary_id df = Some col -> timestamp df = Some ts ->
     col !! i = Some (Some b) -> scores !! i = Some s ->
     2 < Gain.txn_count col (Some b) ->
     Rules.burst df scores !! i
     = Some (s + Z.min (20 * (Gain.txn_count col (Some b) - 1)) 30) /\
     ((i < len df)%nat ->
      _apply_rules df !! i
      = Some (clamp 0 100
                (Gain.high df i + Gain.very_high df i +
                 Z.min (20 * (Gain.txn_count col (Some b) - 1)) 30 +
                 Gain.account df i + Gain.round df i)))) /\
  (beneficiary_id df = None \/ timestamp df = None ->
   Rules.burst df scores = scores) /\
  (account_number df = None -> Rules.account df scores = scores).
Proof.
  split; [|split].
  - intros col ts i b s Hcol Hts Hi Hs Hn.
    assert (Hg : Gain.burst df i
                 = Z.min (20 * (Gain.txn_count col (Some b) - 1)) 30).
    { unfold Gain.burst, Gain.burst_of, Gain.burst_amount.
      rewrite Hcol, Hts, Hi. by rewrite (proj2 (Z.ltb_lt _ _) Hn). }
    split.
    + by rewrite burst_lookup, Hs, Hg.
    + intros Hlen. rewrite apply_rules_lookup by done.
      unfold Gain.total, clamp. by rewrite Hg.
  - unfold Rules.burst. intros [-> | ->]; [done|]. by destruct (beneficiary_id df).
  - unfold Rules.account. by intros ->.
Qed.

(** C4, witness: the three timestamped transactions of B1 gain 30 each. *)
Lemma burst_rule_gain_with_timestamps_witness :
  Rules.burst Burst.with_timestamp [0; 0; 0] !! 1%nat
  = Some (0 + Z.min (20 * (3 - 1)) 30) /\
  _apply_rules Burst.with_timestamp !! 1%nat = Some 30.
Proof.
  destruct (burst_rule_gain_with_timestamps Burst.with_timestamp [0; 0; 0])
    as [H _].
  destruct (H [Some "B1"; Some "B1"; Some "B1"]%string [0; 3600; 7200]
              1%nat "B1"%string 0 eq_refl eq_refl eq_refl eq_refl eq_refl)
    as [H1 H2].
  split; [exact H1|exact (H2 ltac:(vm_compute; lia))].
Defined.

(** C4 as stated fails: with the beneficiary column present and three
    transactions of B1, but no timestamp column, the burst rule adds
    nothing. *)
Lemma burst_rule_needs_timestamps_counterexample :
  beneficiary_id Burst.no_timestamp
  = Some [Some "B1"; Some "B1"; Some "B1"]%string /\
  Gain.txn_count [Some "B1"; Some "B1"; Some "B1"]%string (Some "B1"%string) = 3 /\
  Rules.burst Burst.no_timestamp [0; 0; 0] = [0; 0; 0] /\
  _apply_rules Burst.no_timestamp = [0; 0; 0] /\
  ~ (forall df col scores i b s,
       beneficiary_id df = Some col ->
       col !! i = Some (Some b) -> scores !! i = Some s ->
       2 < Gain.txn_count col (Some b) ->
       Rules.burst df scores !! i
       = Some (s + Z.min (20 * (Gain.txn_count col (Some b) - 1)) 30)).
Proof.
  split; [reflexivity|].
  split; [vm_compute; reflexivity|].
  split; [vm_compute; reflexivity|].
  split; [vm_compute; reflexivity|].
  intros H.
  specialize (H Burst.no_timestamp _ [0; 0; 0] 0%nat "B1"%string 0
                eq_refl eq_refl eq_refl eq_refl).
  vm_compute in H. discriminate.
Qed.

(** ** Witnesses of the scoring claims *)

(** C1, witness: a two-row batch scored with a forest that cannot be
    fitted; the first row scores 51, a Medium. *)
Lemma risk_score_in_range_and_level_by_threshold_witness :
  (0 <= 51 <= 100 /\
   exists lv,
     (Fusion.level <$> fused Sample.unfit Sample.two_rows) !! 0%nat = Some lv /\
     (51 < 50 -> lv = "üü¢ Low"%string) /\
     (50 <= 51 < 75 -> lv = "üü° Medium"%string) /\
     (75 <= 51 -> lv = "üî¥ High"%string)) /\
  exists st' results out,
    detect_fraud Sample.unfit 0%nat [Sample.two_rows] = (st', Returns results) /\
    st' !! results = Some out /\
    len out = len Sample.two_rows /\
    risk_score out = Some (fused Sample.unfit Sample.two_rows) /\
    risk_level out = Some (Fusion.level <$> fused Sample.unfit Sample.two_rows) /\
    length (fused Sample.unfit Sample.two_rows) = len Sample.two_rows.
Proof.
  destruct (risk_score_in_range_and_level_by_threshold Sample.unfit Sample.two_rows)
    as [H1 H2].
  split.
  - apply (H1 0%nat 51). vm_compute. reflexivity.
  - eexists _, _.
    assert (Hrun : detect_fraud Sample.unfit 0%nat [Sample.two_rows]
                   = (_, Returns 1%nat)) by (vm_compute; reflexivity).
    destruct (H2 [Sample.two_rows] 0%nat _ _ eq_refl Hrun) as [out Hout].
    exists out. split; [exact Hrun|exact Hout].
Defined.

(** C2, witness: five rows scored by the forest that goes by amount; the
    fourth row has rule score 85 and anomaly score 0, the fifth has rule
    score 0 and anomaly score 10. *)
Lemma risk_score_is_clamped_weighted_floor_witness :
  fused Sample.by_amount Sample.five_rows !! 3%nat
  = Some (clamp 0 100 (weighted_floor 85 0)) /\
  fused Sample.by_amount Sample.five_rows !! 4%nat
  = Some (clamp 0 100 (weighted_floor 0 10)) /\
  exists st' results out,
    detect_fraud Sample.unfit 0%nat [Sample.two_rows] = (st', Returns results) /\
    st' !! results = Some out /\
    risk_score out = Some (fused Sample.unfit Sample.two_rows).
Proof.
  split; [|split].
  - destruct (risk_score_is_clamped_weighted_floor Sample.by_amount Sample.five_rows)
      as [H _].
    apply (H 3%nat 85 0); vm_compute; reflexivity.
  - destruct (risk_score_is_clamped_weighted_floor Sample.by_amount Sample.five_rows)
      as [H _].
    apply (H 4%nat 0 10); vm_compute; reflexivity.
  - destruct (risk_score_is_clamped_weighted_floor Sample.unfit Sample.two_rows)
      as [_ H].
    assert (Hrun : detect_fraud Sample.unfit 0%nat [Sample.two_rows]
                   = (_, Returns 1%nat)) by (vm_compute; reflexivity).
    destruct (H [Sample.two_rows] 0%nat _ _ eq_refl Hrun) as [out Hout].
    eexists _, _, out. split; [exact Hrun|exact Hout].
Defined.


(** C6, witness: a transaction of 250 whose flag cell is blank is explained
    as a duplicate, where the claim gives the default reason; with the flag
    false the same transaction gets the default reason.  Scored in a batch
    without a fitted forest, the two transactions get these explanations. *)
Lemma missing_duplicate_flag_is_explained_as_set_witness :
  (Explain.duplicate
     ∈ Explain.reasons
         {| row_amount := 250; row_scheme := None;
            row_duplicate_flag := Some FlagNaN |} 0 0 /\
   Explain.duplicate
     ∉ indicators_spec
         {| row_amount := 250; row_scheme := None;
            row_duplicate_flag := Some FlagNaN |} 0) /\
  Explain.reasons
    {| row_amount := 250; row_scheme := None;
       row_duplicate_flag := Some FlagNaN |} 0 0
  = [Explain.duplicate] /\
  indicators_spec
    {| row_amount := 250; row_scheme := None;
       row_duplicate_flag := Some FlagNaN |} 0
  = [Explain.low_anomaly] /\
  Explain.reasons
    {| row_amount := 250000; row_scheme := None; row_duplicate_flag := None |}
    0 41
  = [Explain.high_amount 250000; Explain.ml_anomaly; Explain.round_amount] /\
  exists st' out inds,
    detect_fraud Sample.unfit 0%nat [Sample.blank_flag] = (st', Returns 1%nat) /\
    st' !! 1%nat = Some out /\
    fraud_indicators out = Some inds /\
    inds = [Explain.low_anomaly; Explain.duplicate].
Proof.
  destruct (missing_duplicate_flag_is_explained_as_set Sample.unfit)
    as (Hnan & Hset & _ & Hframe).
  split; [apply Hnan; reflexivity|].
  split; [vm_compute; reflexivity|]. split; [vm_compute; reflexivity|]. split.
  - destruct (Hset {| row_amount := 250000; row_scheme := None;
                      row_duplicate_flag := None |} 0 41 ltac:(discriminate))
      as (-> & _).
    vm_compute. reflexivity.
  - assert (Hrun : detect_fraud Sample.unfit 0%nat [Sample.blank_flag]
                   = (_, Returns 1%nat)) by (vm_compute; reflexivity).
    destruct (Hframe [Sample.blank_flag] 0%nat _ _ _ eq_refl Hrun)
      as (out & inds & Hout & Hinds & Hlen & Hrows).
    eexists _, out, inds. split; [exact Hrun|]. split; [exact Hout|].
    split; [exact Hinds|].
    destruct (Hrows 0%nat 500%Q 0 eq_refl) as (m0 & Hm0 & H0).
    destruct (Hrows 1%nat 250%Q 0 eq_refl) as (m1 & Hm1 & H1).
    injection Hm0 as <-. injection Hm1 as <-.
    destruct inds as [|x0 [|x1 [|x2 inds]]]; try discriminate.
    injection H0 as ->. injection H1 as ->. vm_compute. reflexivity.
Defined.

(** C7, witness: the forest raises on a two-row batch; the call returns and
    the first row scores floor(85 * 0.6) = 51. *)
Lemma fit_failure_scores_by_rules_alone_witness :
  _apply_ml_detection Sample.unfit Sample.two_rows = SeriesOf [0; 0] /\
  exists out scores,
    detect_fraud Sample.unfit 0%nat [Sample.two_rows]
    = ([Sample.two_rows; out], Returns 1%nat) /\
    risk_score out = Some scores /\
    scores !! 0%nat = Some 51.
Proof.
  destruct (fit_failure_scores_by_rules_alone Sample.unfit [Sample.two_rows]
              0%nat Sample.two_rows eq_refl eq_refl)
    as (Hml & _ & out & scores & Hrun & _ & Hs & _ & H).
  split; [exact Hml|].
  exists out, scores. split; [exact Hrun|]. split; [exact Hs|].
  apply (H 0%nat 85). vm_compute. reflexivity.
Defined.

(** ** Facts about the rendering of amounts *)
Section RenderingProofs.









End RenderingProofs.

Section RoundingProofs.

Local Open Scope Q_scope.



End RoundingProofs.

Section ReadingProofs.




End ReadingProofs.

(** ** DuplicateIdentityDetector *)

Section DuplicateFacts.

Implicit Types (col : list cell) (b : cell) (rs : list Z).

Lemma insert_desc_perm x (l : list (cell * Z)) : insert_desc x l ≡ₚ x :: l.
Proof.
  induction l as [|y l IH]; simpl; [done|].
  destruct (snd y <=? snd x); [done|]. rewrite IH. apply Permutation_swap.
Qed.

Lemma sort_desc_perm (l : list (cell * Z)) : sort_desc l ≡ₚ l.
Proof.
  induction l as [|x l IH]; simpl; [done|].
  by rewrite insert_desc_perm, IH.
Qed.

(** A beneficiary that is counted occurs in the column and is not missing. *)
Lemma txn_count_pos col b :
  0 < Gain.txn_count col b -> b ∈ col /\ is_Some b.
Proof.
  unfold Gain.txn_count, eq_mask.
  induction col as [|c col IH]; simpl; [lia|].
  destruct (cell_eq c b) eqn:Hc.
  - intros _. apply cell_eq_true in Hc as [-> Hs]. split; [left|done].
  - intros H. destruct IH as [Hin Hs]; [exact H|].
    split; [by right|done].
Qed.

Lemma txn_count_missing col : Gain.txn_count col None = 0.
Proof.
  unfold Gain.txn_count, eq_mask.
  induction col as [|[c|] col IH]; [done|exact IH..].
Qed.

(** The entries of [value_counts]: one per beneficiary that occurs and is
    not missing, with its number of transactions. *)
Lemma elem_of_value_counts col b c :
  (b, c) ∈ value_counts col <->
  b ∈ col /\ is_Some b /\ c = Gain.txn_count col b.
Proof.
  unfold value_counts. rewrite sort_desc_perm, list_elem_of_fmap. split.
  - intros (k & [= -> ->] & Hk). apply list_elem_of_filter in Hk as [Hs Hk].
    apply (proj1 (elem_of_unique _ _)) in Hk.
    split; [exact Hk|]. split; [exact Hs|reflexivity].
  - intros (Hin & Hs & ->). exists b. split; [done|].
    apply list_elem_of_filter. split; [done|]. by apply elem_of_unique.
Qed.


Lemma elem_of_counts_above col k b c :
  0 <= k ->
  (b, c) ∈ counts_above k (value_counts col) <->
  c = Gain.txn_count col b /\ k < c.
Proof.
  intros Hk. unfold counts_above.
  rewrite list_elem_of_filter, elem_of_value_counts. simpl. split.
  - tauto.
  - intros [-> Hc]. destruct (txn_count_pos col b); [lia|]. tauto.
Qed.



Lemma step_returns df col rs acc b c :
  risk_score df = Some rs ->
  Duplicates.step df col acc (b, c)
  = Returns (if 0 <? high_risk_of col rs b
             then acc ++ [{| Beneficiary_ID := b;
                             Transaction_Count := c;
                             High_Risk_Txns := high_risk_of col rs b;
                             Total_Amount :=
                               Format.rupees (total_of col (amount df) b);
                             Alert_tag := Duplicates.tag |}]
             else acc).
Proof.
  intros Hrs. unfold Duplicates.step. rewrite Hrs.
  fold (high_risk_of col rs b). by destruct (0 <? high_risk_of col rs b).
Qed.

Lemma for_each_step df col rs entries acc :
  risk_score df = Some rs ->
  (forall e, e ∈ entries -> snd e = Gain.txn_count col (fst e)) ->
  Duplicates.for_each (Duplicates.step df col) entries acc
  = Returns (acc ++ (alert_for df col rs <$>
                     filter (fun b => 0 < high_risk_of col rs b) (fst <$> entries))).
Proof.
  intros Hrs. revert acc.
  induction entries as [|[b c] entries IH]; intros acc Hc.
  - simpl. by rewrite app_nil_r.
  - assert (Hcb : c = Gain.txn_count col b) by (apply (Hc (b, c)); left).
    assert (Hc' : forall e, e ∈ entries -> snd e = Gain.txn_count col (fst e)).
    { intros e He. apply Hc. by right. }
    cbn [Duplicates.for_each]. rewrite (step_returns _ _ _ _ _ _ Hrs).
    unfold mbind, outcome_bind. rewrite IH by done.
    rewrite fmap_cons, filter_cons. cbn [fst].
    destruct (Z.ltb_spec 0 (high_risk_of col rs b)) as [Hpos|Hneg].
    + rewrite decide_True by done. rewrite fmap_cons, <- app_assoc.
      subst c. reflexivity.
    + rewrite decide_False by lia. reflexivity.
Qed.





Lemma detect_duplicates_scored df col rs :
  beneficiary_id df = Some col -> risk_score df = Some rs ->
  detect_duplicates df
  = Returns (alert_for df col rs <$>
             filter (fun b => 0 < high_risk_of col rs b)
                    (fst <$> counts_above 1 (value_counts col))).
Proof.
  intros Hcol Hrs. unfold detect_duplicates. rewrite Hcol.
  rewrite (for_each_step df col rs) ; [done|done|].
  intros [b c] He. by apply elem_of_counts_above in He as [-> _].
Qed.

(** Whatever the frame, an alert is for a beneficiary with more than one
    transaction. *)
Lemma detect_duplicates_alert_count df col alerts a :
  beneficiary_id df = Some col ->
  detect_duplicates df = Returns alerts -> a ∈ alerts ->
  1 < Gain.txn_count col (Beneficiary_ID a).
Proof.
  intros Hcol Hrun Ha. destruct (risk_score df) as [rs|] eqn:Hrs.
  - rewrite (detect_duplicates_scored _ _ _ Hcol Hrs) in Hrun.
    injection Hrun as <-.
    apply list_elem_of_fmap in Ha as (b & -> & Hb). simpl.
    apply list_elem_of_filter in Hb as [_ Hb].
    apply list_elem_of_fmap in Hb as ([b' c] & -> & Hb).
    by apply elem_of_counts_above in Hb as [-> ?].
  - unfold detect_duplicates in Hrun. rewrite Hcol in Hrun.
    destruct (counts_above 1 (value_counts col)) as [|[b c] l].
    + injection Hrun as <-. by apply elem_of_nil in Ha.
    + simpl in Hrun. unfold Duplicates.step in Hrun. rewrite Hrs in Hrun.
      discriminate.
Qed.

End DuplicateFacts.

Section AlertFacts.

Implicit Types (col : list cell) (b : cell) (rs : list Z).




End AlertFacts.




(** C10: in a batch with the beneficiary column, a row whose beneficiary is
    missing gains nothing from the burst rule, however many such rows there
    are, and no duplicate alert is ever for the missing beneficiary,
    whatever the risk scores. *)
Theorem missing_beneficiary_neither_gains_nor_alerts df col :
  beneficiary_id df = Some col ->
  (forall scores i,
     col !! i = Some None ->
     Rules.burst df scores !! i = scores !! i /\ Gain.burst df i = 0) /\
  (forall alerts a,
     detect_duplicates df = Returns alerts -> a ∈ alerts ->
     Beneficiary_ID a <> None).
Proof.
  intros Hcol. split.
  - intros scores i Hi.
    assert (Hg : Gain.burst df i = 0).
    { unfold Gain.burst, Gain.burst_of. rewrite Hcol, Hi.
      by destruct (timestamp df). }
    split; [|done]. rewrite burst_lookup, Hg.
    destruct (scores !! i); simpl; [f_equal; lia|done].
  - intros alerts a Hrun Ha Hnone.
    pose proof (detect_duplicates_alert_count _ _ _ _ Hcol Hrun Ha) as Hc.
    rewrite Hnone, txn_count_missing in Hc. lia.
Qed.

(** C10, witness: three rows without beneficiary and with risk scores of
    90 and more; the burst rule leaves the first of them at 0, and the only
    alert is for A. *)
Lemma missing_beneficiary_neither_gains_nor_alerts_witness :
  Rules.burst Missing.batch [0; 0; 0; 0; 0] !! 0%nat = Some 0 /\
  exists a,
    detect_duplicates Missing.batch = Returns [a] /\ Beneficiary_ID a <> None.
Proof.
  destruct (missing_beneficiary_neither_gains_nor_alerts Missing.batch _ eq_refl)
    as [H1 H2].
  split.
  - destruct (H1 [0; 0; 0; 0; 0] 0%nat eq_refl) as [-> _]. reflexivity.
  - eexists. split; [vm_compute; reflexivity|].
    eapply H2; [vm_compute; reflexivity|left].
Defined.

(** ** Percentile thresholds *)

Section QuantileFacts.

Local Open Scope Q_scope.

Lemma insert_sorted_Forall (P : Q -> Prop) x l :
  P x -> Forall P l -> Forall P (insert_sorted x l).
Proof.
  intros Hx Hl. induction Hl as [|y l Hy Hl IH]; simpl.
  - by constructor.
  - destruct (Qle_bool x y); repeat constructor; auto.
Qed.

Lemma insert_sorted_sorted x l :
  StronglySorted Qle l -> StronglySorted Qle (insert_sorted x l).
Proof.
  induction 1 as [|y l Hs IH Hy]; simpl.
  - repeat constructor.
  - destruct (Qle_bool x y) eqn:Hxy.
    + apply Qle_bool_iff in Hxy. constructor; [by constructor|].
      constructor; [done|].
      eapply Forall_impl; [exact Hy|]. intros z Hz. by apply Qle_trans with y.
    + constructor; [done|]. apply insert_sorted_Forall; [|done].
      apply Qlt_le_weak, Qnot_le_lt. intros Hle.
      apply Qle_bool_iff in Hle. congruence.
Qed.

Lemma sort_values_sorted l : StronglySorted Qle (sort_values l).
Proof.
  induction l as [|x l IH]; simpl; [constructor|by apply insert_sorted_sorted].
Qed.

Lemma insert_sorted_length x l : length (insert_sorted x l) = S (length l).
Proof.
  induction l as [|y l IH]; simpl; [done|].
  destruct (Qle_bool x y); simpl; by rewrite ?IH.
Qed.

Lemma sort_values_length l : length (sort_values l) = length l.
Proof.
  induction l as [|x l IH]; simpl; [done|]. by rewrite insert_sorted_length, IH.
Qed.

(** In a sorted column a later position holds no smaller value. *)
Lemma sorted_nth s d (i j : nat) :
  StronglySorted Qle s -> (i <= j < length s)%nat -> nth i s d <= nth j s d.
Proof.
  intros Hs. revert i j. induction Hs as [|x s Hs IH Hx]; intros i j Hij.
  - simpl in Hij. lia.
  - destruct i as [|i], j as [|j]; simpl in *; try lia.
    + apply Qle_refl.
    + rewrite List.Forall_forall in Hx. apply Hx, nth_In. lia.
    + apply IH. lia.
Qed.


Lemma quantile_interpolate col q t :
  quantile col q = Some t ->
  exists a0 s,
    sort_values col = a0 :: s /\
    t = interpolate (a0 :: s) a0
          (q * inject_Z (Z.of_nat (length (a0 :: s)) - 1)).
Proof.
  unfold quantile, interpolate. destruct (sort_values col) as [|a0 s]; [done|].
  intros [= <-]. by exists a0, s.
Qed.

Lemma quantile_nonempty col q : col <> [] -> is_Some (quantile col q).
Proof.
  intros Hne. unfold quantile.
  destruct (sort_values col) as [|a0 s] eqn:Hs; [|by eexists].
  apply (f_equal length) in Hs. rewrite sort_values_length in Hs.
  by destruct col.
Qed.

Lemma Qfloor_bounds pos (m : Z) :
  0 <= pos -> pos <= inject_Z m -> (0 <= Qfloor pos <= m)%Z.
Proof.
  intros H0 Hm. split.
  - change 0%Z with (Qfloor 0). by apply Qfloor_resp_le.
  - rewrite <- (Qfloor_Z m). by apply Qfloor_resp_le.
Qed.

(** Interpolation over a sorted column is monotone in the position. *)
Lemma interpolate_mono s a0 p1 p2 :
  StronglySorted Qle s ->
  0 <= p1 -> p1 <= p2 -> p2 <= inject_Z (Z.of_nat (length s) - 1) ->
  interpolate s a0 p1 <= interpolate s a0 p2.
Proof.
  intros Hs H0 H12 Hn. unfold interpolate.
  set (n := Z.of_nat (length s)) in *.
  assert (Hlo1 : (0 <= Qfloor p1 <= n - 1)%Z).
  { apply Qfloor_bounds; [done|]. by apply Qle_trans with p2. }
  assert (Hlo2 : (0 <= Qfloor p2 <= n - 1)%Z).
  { apply Qfloor_bounds; [|done]. by apply Qle_trans with p1. }
  assert (Hlo : (Qfloor p1 <= Qfloor p2)%Z) by by apply Qfloor_resp_le.
  pose proof (Qfloor_le p1) as Hf1. pose proof (Qlt_floor p1) as Hc1.
  pose proof (Qfloor_le p2) as Hf2. pose proof (Qlt_floor p2) as Hc2.
  rewrite inject_Z_plus in Hc1, Hc2. change (inject_Z 1) with 1 in Hc1, Hc2.
  set (lo1 := Qfloor p1) in *. set (lo2 := Qfloor p2) in *.
  set (hi1 := Z.min (lo1 + 1) (n - 1)). set (hi2 := Z.min (lo2 + 1) (n - 1)).
  assert (Hab1 : nth (Z.to_nat lo1) s a0 <= nth (Z.to_nat hi1) s a0).
  { apply sorted_nth; [done|]. subst hi1 n. lia. }
  assert (Hab2 : nth (Z.to_nat lo2) s a0 <= nth (Z.to_nat hi2) s a0).
  { apply sorted_nth; [done|]. subst hi2 n. lia. }
  destruct (Z.eq_dec lo1 lo2) as [Heq|Hne].
  - subst hi1 hi2. rewrite <- Heq in *.
    set (a := nth (Z.to_nat lo1) s a0) in *.
    set (b := nth (Z.to_nat (Z.min (lo1 + 1) (n - 1))) s a0) in *.
    assert (0 <= (b - a) * (p2 - p1)) by (apply Qmult_le_0_compat; lra).
    lra.
  - assert (Hmid : nth (Z.to_nat hi1) s a0 <= nth (Z.to_nat lo2) s a0).
    { apply sorted_nth; [done|]. subst hi1 n. lia. }
    set (a1 := nth (Z.to_nat lo1) s a0) in *.
    set (b1 := nth (Z.to_nat hi1) s a0) in *.
    set (a2 := nth (Z.to_nat lo2) s a0) in *.
    set (b2 := nth (Z.to_nat hi2) s a0) in *.
    assert (0 <= (b1 - a1) * (1 - (p1 - inject_Z lo1)))
      by (apply Qmult_le_0_compat; lra).
    assert (0 <= (b2 - a2) * (p2 - inject_Z lo2))
      by (apply Qmult_le_0_compat; lra).
    lra.
Qed.

(** The 95th percentile of a batch is at most its 99th percentile. *)
Lemma quantile_95_le_99 col t95 t99 :
  quantile col (95 # 100) = Some t95 -> quantile col (99 # 100) = Some t99 ->
  t95 <= t99.
Proof.
  intros (a0 & s & Hs & ->)%quantile_interpolate
         (a0' & s' & Hs' & ->)%quantile_interpolate.
  rewrite Hs in Hs'. injection Hs' as <- <-.
  pose proof (sort_values_sorted col) as Hsorted. rewrite Hs in Hsorted.
  assert (Hn : 0 <= inject_Z (Z.of_nat (length (a0 :: s)) - 1)).
  { change 0 with (inject_Z 0). rewrite <- Zle_Qle. simpl length. lia. }
  apply interpolate_mono; [done|..]; lra.
Qed.

End QuantileFacts.

(** ** Raising an amount above the 99th percentile *)


Section RaiseFacts.

Implicit Types (df : DataFrame).

Lemma gt_mask_at col threshold i :
  mask_at (gt_mask col threshold) i =
  match col !! i, threshold with
  | Some a, Some t => Qlt_bool t a
  | _, _ => false
  end.
Proof.
  unfold mask_at, gt_mask. destruct threshold as [t|];
    rewrite list_lookup_fmap; by destruct (col !! i).
Qed.

(** A row above the 99th percentile is above the 95th. *)
Lemma above_q99_above_q95 df i :
  Raise.above_q99 df i = true -> Raise.above_q95 df i = true.
Proof.
  unfold Raise.above_q99, Raise.above_q95. rewrite !gt_mask_at.
  destruct (amount df !! i) as [a|] eqn:Ha; [|done].
  destruct (quantile (amount df) (99 # 100)) as [t99|] eqn:H99; [|done].
  destruct (quantile_nonempty (amount df) (95 # 100)) as [t95 H95].
  { intros Hnil. by rewrite Hnil in Ha. }
  rewrite H95. rewrite !Qlt_bool_iff. intros Hlt.
  eapply Qle_lt_trans; [|exact Hlt]. by eapply quantile_95_le_99.
Qed.

Lemma len_set_amount i a df : len (set_amount i a df) = len df.
Proof. unfold len; simpl. apply length_insert. Qed.

End RaiseFacts.

(** C8 (as amended): for two batches identical except that one
    transaction's amount is raised above the 99th percentile of the raised
    batch, when that transaction was not above the 99th percentile of the
    original batch and a round amount stays round, the transaction's rule
    score rises by at least 40 or to the cap of 100: it is at least
    min(old + 40, 100), and strictly greater than the old score unless that
    was already 100. *)
Theorem raise_above_q99_gains_40_up_to_cap df i a' r :
  _apply_rules df !! i = Some r ->
  Raise.above_q99 (set_amount i a' df) i = true ->
  Raise.above_q99 df i = false ->
  (Raise.is_round df i = true -> Raise.is_round (set_amount i a' df) i = true) ->
  exists r',
    _apply_rules (set_amount i a' df) !! i = Some r' /\
    Z.min (r + 40) 100 <= r' /\
    (r < 100 -> r < r').
Proof.
  intros Hr H99' H99 Hround.
  assert (Hi : (i < len df)%nat).
  { rewrite <- apply_rules_length. eapply lookup_lt_Some, Hr. }
  rewrite apply_rules_lookup in Hr by done. injection Hr as <-.
  eexists. split.
  { apply apply_rules_lookup. by rewrite len_set_amount. }
  pose proof (above_q99_above_q95 _ _ H99') as H95'.
  pose proof (gain_cases df i) as (Hh & _ & Hb & Ha & Hr0).
  assert (Gain.high (set_amount i a' df) i = 30) as Hh'.
  { unfold Gain.high. fold (Raise.above_q95 (set_amount i a' df) i).
    by rewrite H95'. }
  assert (Gain.very_high (set_amount i a' df) i = 40) as Hv'.
  { unfold Gain.very_high. fold (Raise.above_q99 (set_amount i a' df) i).
    by rewrite H99'. }
  assert (Gain.very_high df i = 0) as Hv.
  { unfold Gain.very_high. fold (Raise.above_q99 df i). by rewrite H99. }
  assert (Gain.round df i <= Gain.round (set_amount i a' df) i) as Hr5.
  { unfold Gain.round. fold (Raise.is_round df i).
    fold (Raise.is_round (set_amount i a' df) i).
    destruct (Raise.is_round df i); [by rewrite Hround|].
    destruct (Raise.is_round _ i); lia. }
  unfold Gain.total.
  change (Gain.burst (set_amount i a' df) i) with (Gain.burst df i).
  change (Gain.account (set_amount i a' df) i) with (Gain.account df i).
  rewrite Hh', Hv', Hv. lia.
Qed.

(** C8, witness: of the amounts 1000, 1500, 1200 the first is raised to
    5000; its rule score goes from 15 to 85. *)
Lemma raise_above_q99_gains_40_up_to_cap_witness :
  exists r',
    _apply_rules (set_amount 0 5000 (Sample.amounts_only [1000; 1500; 1200]%Q))
      !! 0%nat = Some r' /\
    Z.min (15 + 40) 100 <= r' /\
    (15 < 100 -> 15 < r').
Proof.
  apply (raise_above_q99_gains_40_up_to_cap
           (Sample.amounts_only [1000; 1500; 1200]%Q) 0%nat 5000%Q 15);
    vm_compute; reflexivity.
Defined.

(** C8 as stated fails: six transactions of 1000 by one beneficiary on one
    account score 70 each; raising the first to 2000 puts it above the 99th
    percentile (1950) and its score at the cap, 100: a rise of 30. *)
Lemma raise_capped_at_100_counterexample :
  Raise.above_q99 Raise.crowded 0%nat = false /\
  Raise.above_q99 (set_amount 0 2000 Raise.crowded) 0%nat = true /\
  Raise.is_round (set_amount 0 2000 Raise.crowded) 0%nat = true /\
  _apply_rules Raise.crowded !! 0%nat = Some 70 /\
  _apply_rules (set_amount 0 2000 Raise.crowded) !! 0%nat = Some 100 /\
  ~ (forall df i a' r r',
       Raise.above_q99 (set_amount i a' df) i = true ->
       Raise.above_q99 df i = false ->
       _apply_rules df !! i = Some r ->
       _apply_rules (set_amount i a' df) !! i = Some r' ->
       r + 40 <= r').
Proof.
  split; [vm_compute; reflexivity|].
  split; [vm_compute; reflexivity|].
  split; [vm_compute; reflexivity|].
  split; [vm_compute; reflexivity|].
  split; [vm_compute; reflexivity|].
  intros H.
  specialize (H Raise.crowded 0%nat 2000%Q 70 100).
  assert (70 + 40 <= 100) as Habs; [|lia].
  apply H; vm_compute; reflexivity.
Qed.

(** The round amount has to stay round: in the ladder 1000, ..., 22000 the
    amount 21000 is above the 95th but not the 99th percentile and scores
    45; raised to 30000.5 it scores 70, a rise of 25. *)
Lemma raise_losing_round_amount :
  Raise.above_q99 Raise.ladder 20%nat = false /\
  Raise.above_q99 (set_amount 20 (60001 # 2) Raise.ladder) 20%nat = true /\
  _apply_rules Raise.ladder !! 20%nat = Some 45 /\
  _apply_rules (set_amount 20 (60001 # 2) Raise.ladder) !! 20%nat = Some 70.
Proof. repeat split; vm_compute; reflexivity. Qed.

(** ** The caller's batch *)

(** C9: a scoring call works on a copy and never changes an object that is
    already in the store, the caller's batch included; but it does not
    always return an annotated structure: whenever the forest has been
    fitted, the anomaly scores are a numpy array, the explanation of the
    first row calls [get] on it, and the call ends in AttributeError. *)
Theorem scoring_a_fitted_batch_raises IsolationForest st df d
  predictions anomaly_scores :
  st !! df = Some d ->
  fit_predict_scores IsolationForest (Anomaly.features d)
    = Some (predictions, anomaly_scores) ->
  exists st',
    detect_fraud IsolationForest df st = (st', Raises AttributeError) /\
    (forall l d', st !! l = Some d' -> st' !! l = Some d').
Proof.
  intros Hd Hfit. eexists. split.
  - by eapply detect_fraud_raises_when_fitted.
  - intros l d' Hl. by apply lookup_app_l_Some.
Qed.

(** C9, witness: five rows with amounts only, and a forest that fits. *)
Lemma scoring_a_fitted_batch_raises_witness :
  exists st',
    detect_fraud Sample.by_amount 0%nat [Sample.five_rows]
    = (st', Raises AttributeError) /\
    st' !! 0%nat = Some Sample.five_rows.
Proof.
  destruct (scoring_a_fitted_batch_raises Sample.by_amount [Sample.five_rows]
              0%nat Sample.five_rows
              [1; 1; 1; -1; -1] [-(1); -(5); -(3); -(2000); -(1800)]%Q
              eq_refl eq_refl)
    as (st' & Hrun & Hkeep).
  exists st'. split; [exact Hrun|]. by apply Hkeep.
Defined.

(** When the call returns, its result is a new object and every object of
    the store is as it was. *)
Lemma scoring_returns_a_new_object IsolationForest st df d st' results :
  st !! df = Some d ->
  detect_fraud IsolationForest df st = (st', Returns results) ->
  results <> df /\ st !! results = None /\ is_Some (st' !! results) /\
  st' !! df = Some d.
Proof.
  intros Hd Hrun.
  pose proof (detect_fraud_preserves_store _ _ _ _ _ Hrun _ _ Hd) as Hkeep.
  destruct (detect_fraud_returns _ _ _ _ _ Hrun) as (d0 & _ & _ & -> & ->).
  pose proof (lookup_lt_Some _ _ _ Hd) as Hlt.
  repeat split; [lia| |by rewrite lookup_snoc|done].
  apply lookup_ge_None. lia.
Qed.


(** * Further properties of the code *)

(** ** The rules one by one *)

Section RuleProperties.

Implicit Types (df : DataFrame) (scores : list Z) (col : list cell).

Lemma mask_at_isin col keys i :
  mask_at (isin col keys) i =
  match col !! i with
  | Some c => existsb (cell_same c) keys
  | None => false
  end.
Proof.
  unfold mask_at, isin. rewrite list_lookup_fmap. by destruct (col !! i).
Qed.

(** A cell is among the frequent accounts exactly when it is an account
    with more than [k] transactions. *)
Lemma frequent_account_iff col k c :
  0 <= k ->
  existsb (cell_same c) (fst <$> counts_above k (value_counts col)) = true <->
  k < Gain.txn_count col c.
Proof.
  intros Hk. rewrite existsb_exists. split.
  - intros (key & Hin & Hsame). apply bool_decide_eq_true in Hsame as <-.
    apply list_elem_of_In, list_elem_of_fmap in Hin as ([b n] & -> & Hb).
    by apply elem_of_counts_above in Hb as [-> ?].
  - intros Hc. exists c. split; [|by apply bool_decide_eq_true].
    apply list_elem_of_In, list_elem_of_fmap.
    exists (c, Gain.txn_count col c). split; [done|].
    by apply elem_of_counts_above.
Qed.

(** X1: the account rule adds 25 to each transaction of an account that
    occurs more than 5 times in the batch, and leaves every other
    transaction, those without an account included, as it was. *)
Theorem account_rule_adds_25_to_frequent_accounts df col scores i s :
  account_number df = Some col -> scores !! i = Some s ->
  (forall a, col !! i = Some (Some a) ->
     Rules.account df scores !! i
     = Some (if 5 <? Gain.txn_count col (Some a) then s + 25 else s)) /\
  (col !! i = Some None -> Rules.account df scores !! i = Some s).
Proof.
  intros Hcol Hs. rewrite account_lookup, Hs. unfold Gain.account.
  rewrite Hcol, mask_at_isin. simpl. split.
  - intros a Ha. destruct (col !! i) as [c|]; [|done].
    injection Ha as ->. f_equal.
    destruct (Z.ltb_spec 5 (Gain.txn_count col (Some a))) as [Hgt|Hle].
    + by rewrite (proj2 (frequent_account_iff col 5 (Some a) ltac:(lia)) Hgt).
    + destruct (existsb _ _) eqn:He; [|lia].
      apply frequent_account_iff in He; lia.
  - intros Ha. destruct (col !! i) as [c|]; [|done].
    injection Ha as ->. f_equal.
    destruct (existsb _ _) eqn:He; [|lia].
    apply frequent_account_iff in He; [|lia].
    rewrite txn_count_missing in He. lia.
Qed.

Lemma mask_at_round_mask (amounts : list Q) i :
  mask_at (round_mask amounts) i =
  match amounts !! i with
  | Some a => Qeq_bool (Qmod a 1000) 0
  | None => false
  end.
Proof.
  unfold mask_at, round_mask. rewrite list_lookup_fmap. by destruct (amounts !! i).
Qed.

(** X2: the round-amount rule adds 15 to a transaction exactly when its amount
    is an integer multiple of 1000 (zero included): the test on the whole
    batch that guards the rule never holds a gain back. *)
Theorem round_rule_adds_15_to_multiples_of_1000 df scores i a s :
  amount df !! i = Some a -> scores !! i = Some s ->
  (multiple_of_1000 a -> Rules.round_amount df scores !! i = Some (s + 15)) /\
  (~ multiple_of_1000 a -> Rules.round_amount df scores !! i = Some s).
Proof.
  intros Ha Hs. rewrite round_amount_lookup, Hs. unfold Gain.round.
  rewrite mask_at_round_mask, Ha. simpl. split; intros Hm.
  - by rewrite (proj2 (round_test_iff a) Hm).
  - destruct (Qeq_bool _ _) eqn:He; [|f_equal; lia].
    by apply round_test_iff in He.
Qed.

(** Witness: an amount of 0 is a multiple of 1000 and gains 15. *)
Lemma round_rule_adds_15_to_multiples_of_1000_witness :
  Rules.round_amount (Sample.amounts_only [0; 1250]%Q) [0; 0] !! 0%nat = Some 15 /\
  Rules.round_amount (Sample.amounts_only [0; 1250]%Q) [0; 0] !! 1%nat = Some 0.
Proof.
  split.
  - apply (round_rule_adds_15_to_multiples_of_1000
             (Sample.amounts_only [0; 1250]%Q) [0; 0] 0%nat 0%Q 0 eq_refl eq_refl).
    exists 0. reflexivity.
  - apply (round_rule_adds_15_to_multiples_of_1000
             (Sample.amounts_only [0; 1250]%Q) [0; 0] 1%nat 1250%Q 0 eq_refl eq_refl).
    intros Hm. apply round_test_iff in Hm. vm_compute in Hm. discriminate.
Defined.

(** Witness for the account rule: six transactions on one account. *)
Lemma account_rule_adds_25_to_frequent_accounts_witness :
  Rules.account Raise.crowded [0; 0; 0; 0; 0; 0] !! 2%nat = Some 25.
Proof.
  destruct (account_rule_adds_25_to_frequent_accounts Raise.crowded
              (replicate 6 (Some "ACC1"%string)) [0; 0; 0; 0; 0; 0] 2%nat 0
              eq_refl eq_refl) as [H _].
  exact (H "ACC1"%string eq_refl).
Defined.

(** X3: the two percentile rules are nested: a transaction above the 99th
    percentile is above the 95th too, so together they add 0, 30 or 70 and
    never 40 alone. *)
Theorem percentile_rules_add_0_30_or_70 df scores i s :
  scores !! i = Some s ->
  exists g,
    Rules.very_high_amount df (Rules.high_amount df scores) !! i = Some (s + g) /\
    (g = 0 \/ g = 30 \/ g = 70) /\
    (Raise.above_q99 df i = true -> g = 70).
Proof.
  intros Hs. exists (Gain.high df i + Gain.very_high df i).
  rewrite very_high_amount_lookup, high_amount_lookup, Hs. simpl.
  split; [f_equal; lia|].
  unfold Gain.high, Gain.very_high.
  fold (Raise.above_q95 df i). fold (Raise.above_q99 df i).
  pose proof (above_q99_above_q95 df i) as Hnest.
  destruct (Raise.above_q99 df i), (Raise.above_q95 df i);
    try (specialize (Hnest eq_refl); discriminate); split; auto; intros; lia.
Qed.

(** Witness: the largest of five amounts gains 70. *)
Lemma percentile_rules_add_0_30_or_70_witness :
  Rules.very_high_amount Sample.five_rows
    (Rules.high_amount Sample.five_rows [0; 0; 0; 0; 0]) !! 3%nat = Some 70.
Proof.
  destruct (percentile_rules_add_0_30_or_70 Sample.five_rows [0; 0; 0; 0; 0]
              3%nat 0 eq_refl) as (g & Hg & _ & H99).
  rewrite Hg. f_equal. rewrite (H99 ltac:(vm_compute; reflexivity)). reflexivity.
Defined.

Lemma sort_values_Forall (P : Q -> Prop) l : Forall P l -> Forall P (sort_values l).
Proof.
  induction 1 as [|x l Hx Hl IH]; simpl; [constructor|].
  by apply insert_sorted_Forall.
Qed.

Lemma Forall_nth_default (P : Q -> Prop) l d i :
  Forall P l -> P d -> P (nth i l d).
Proof.
  intros Hl Hd. revert i. induction Hl as [|x l Hx Hl IH]; intros [|i]; simpl; auto.
Qed.

(** When all amounts are equal every quantile is that amount. *)
Lemma quantile_of_equal_amounts (amounts : list Q) a q t :
  Forall (fun x => x == a)%Q amounts -> quantile amounts q = Some t -> (t == a)%Q.
Proof.
  intros Hall (a0 & l & Hs & ->)%quantile_interpolate.
  pose proof (sort_values_Forall _ _ Hall) as Hsorted. rewrite Hs in Hsorted.
  assert (Ha0 : (a0 == a)%Q) by by inversion Hsorted.
  unfold interpolate.
  set (lo := Qfloor _). set (hi := Z.min _ _). set (frac := (_ - inject_Z lo)%Q).
  pose proof (Forall_nth_default _ _ a0 (Z.to_nat lo) Hsorted Ha0) as H1.
  pose proof (Forall_nth_default _ _ a0 (Z.to_nat hi) Hsorted Ha0) as H2.
  simpl in H1, H2. rewrite H1, H2. ring.
Qed.

(** X4: in a batch whose amounts are all equal, a batch of one transaction
    included, no transaction is above a percentile: the two percentile
    rules leave every score as it was. *)
Theorem equal_amounts_trigger_no_percentile_rule df a scores :
  Forall (fun x => x == a)%Q (amount df) ->
  Rules.very_high_amount df (Rules.high_amount df scores) = scores.
Proof.
  intros Hall.
  assert (Hnone : forall q i,
            mask_at (gt_mask (amount df) (quantile (amount df) q)) i = false).
  { intros q i. rewrite gt_mask_at.
    destruct (amount df !! i) as [x|] eqn:Hx; [|done].
    destruct (quantile (amount df) q) as [t|] eqn:Ht; [|done].
    pose proof (quantile_of_equal_amounts _ _ _ _ Hall Ht) as Hta.
    assert (Hxa : (x == a)%Q).
    { rewrite List.Forall_forall in Hall. apply Hall.
      apply list_elem_of_In, list_elem_of_lookup. eauto. }
    destruct (Qlt_bool t x) eqn:Hlt; [|done].
    apply Qlt_bool_iff in Hlt. rewrite Hta, Hxa in Hlt.
    by apply Qlt_irrefl in Hlt. }
  apply list_eq. intros i.
  rewrite very_high_amount_lookup, high_amount_lookup.
  unfold Gain.high, Gain.very_high. rewrite !Hnone.
  destruct (scores !! i); simpl; [f_equal; lia|done].
Qed.

(** Witness: a batch of a single transaction. *)
Lemma equal_amounts_trigger_no_percentile_rule_witness :
  Rules.very_high_amount (Sample.amounts_only [750000%Q])
    (Rules.high_amount (Sample.amounts_only [750000%Q]) [0]) = [0].
Proof.
  apply (equal_amounts_trigger_no_percentile_rule
           (Sample.amounts_only [750000%Q]) 750000%Q [0]).
  repeat constructor.
Defined.

(** X5: [_apply_rules] gives one score per transaction, and a rule score is
    always one of fifteen values between 0 and 100, each a multiple of 5. *)
Theorem rule_scores_one_per_row_in_fifteen_values df :
  length (_apply_rules df) = len df /\
  forall i r, _apply_rules df !! i = Some r ->
    r ∈ rule_scores_reached /\ 0 <= r <= 100 /\ (5 | r).
Proof.
  split; [apply apply_rules_length|]. intros i r Hr.
  pose proof (rule_score_reached _ _ _ Hr) as Hin.
  split; [done|]. unfold rule_scores_reached in Hin.
  rewrite !elem_of_cons in Hin.
  assert (Hcases : r = 0 \/ r = 15 \/ r = 25 \/ r = 30 \/ r = 40 \/ r = 45 \/
                   r = 55 \/ r = 60 \/ r = 65 \/ r = 70 \/ r = 75 \/ r = 80 \/
                   r = 85 \/ r = 95 \/ r = 100).
  { pose proof (not_elem_of_nil r) as Hnil. tauto. }
  split; [lia|]. exists (r / 5).
  repeat (destruct Hcases as [-> | Hcases]; [reflexivity|]). by subst.
Qed.

(** Witness: the crowded batch scores 70 on every row. *)
Lemma rule_scores_one_per_row_in_fifteen_values_witness :
  length (_apply_rules Raise.crowded) = 6%nat /\
  70 ∈ rule_scores_reached /\ 0 <= 70 <= 100 /\ (5 | 70).
Proof.
  destruct (rule_scores_one_per_row_in_fifteen_values Raise.crowded) as [Hlen H].
  split; [exact Hlen|]. apply (H 0%nat 70). vm_compute. reflexivity.
Defined.

End RuleProperties.

(** ** Feature codes *)

Section EncodingProperties.

Implicit Types (col keys : list cell) (c : cell).

Lemma index_of_Some c keys z :
  Anomaly.index_of c keys = Some z ->
  exists k : nat, z = Z.of_nat k /\ keys !! k = Some c.
Proof.
  revert z. induction keys as [|key keys IH]; intros z; simpl; [done|].
  unfold cell_same. case_bool_decide as Hc.
  - intros [= <-]. exists 0%nat. by subst.
  - destruct (Anomaly.index_of c keys) as [z'|]; simpl; [|done].
    intros [= <-]. destruct (IH z' eq_refl) as (k & -> & Hk).
    exists (S k). split; [lia|done].
Qed.

Lemma index_of_elem c keys :
  c ∈ keys -> is_Some (Anomaly.index_of c keys).
Proof.
  induction keys as [|key keys IH]; simpl.
  - by intros ?%elem_of_nil.
  - unfold cell_same. case_bool_decide as Hc; [by eexists|].
    intros [?|Hin]%elem_of_cons; [done|].
    destruct (IH Hin) as [z ->]. by eexists.
Qed.

(** X6: the integer codes of a categorical column decode: the code of a row
    with a value is a position in the list of distinct values of the
    column, and that position holds the row's own value; so two such rows
    have the same code exactly when they have the same value. *)
Theorem category_codes_decode col i v :
  col !! i = Some (Some v) ->
  (exists k : nat,
     Anomaly.encode col !! i = Some (Some (Z.of_nat k)) /\
     unique col !! k = Some (Some v) /\ (k < length (unique col))%nat) /\
  (forall j v', col !! j = Some (Some v') ->
     (Anomaly.encode col !! i = Anomaly.encode col !! j <-> v = v')).
Proof.
  intros Hi.
  assert (Hcode : forall j x, col !! j = Some x ->
            exists k : nat,
              Anomaly.encode col !! j = Some (Some (Z.of_nat k)) /\
              unique col !! k = Some x).
  { intros j x Hj. unfold Anomaly.encode. rewrite list_lookup_fmap, Hj. simpl.
    destruct (index_of_elem x (unique col)) as [z Hz].
    { apply elem_of_unique, list_elem_of_lookup. eauto. }
    destruct (index_of_Some _ _ _ Hz) as (k & -> & Hk).
    exists k. by rewrite Hz. }
  split.
  - destruct (Hcode i _ Hi) as (k & Hk & Hu). exists k.
    split; [done|]. split; [done|]. by eapply lookup_lt_Some.
  - intros j v' Hj.
    destruct (Hcode i _ Hi) as (k & Hk & Hu).
    destruct (Hcode j _ Hj) as (k' & Hk' & Hu').
    rewrite Hk, Hk'. split.
    + intros [= Heq]. apply Nat2Z.inj in Heq. subst k'. congruence.
    + intros <-. do 3 f_equal.
      eapply NoDup_lookup; [apply NoDup_unique|exact Hu|exact Hu'].
Qed.

(** Witness: schemes PDS, NREGA, Pension, PDS get the codes 0, 1, 2, 0. *)
Lemma category_codes_decode_witness :
  Anomaly.encode [Some "PDS"; Some "NREGA"; Some "Pension"; Some "PDS"]%string
  = [Some 0; Some 1; Some 2; Some 0] /\
  exists k : nat,
    Anomaly.encode [Some "PDS"; Some "NREGA"; Some "Pension"; Some "PDS"]%string
      !! 3%nat
    = Some (Some (Z.of_nat k)) /\
    unique [Some "PDS"; Some "NREGA"; Some "Pension"; Some "PDS"]%string !! k
    = Some (Some "PDS"%string).
Proof.
  split; [vm_compute; reflexivity|].
  destruct (category_codes_decode
              [Some "PDS"; Some "NREGA"; Some "Pension"; Some "PDS"]%string 3%nat
              "PDS"%string eq_refl) as [(k & Hk & Hu & _) _].
  exists k. split; [exact Hk|exact Hu].
Defined.

End EncodingProperties.

(** ** Anomaly scores *)

Section AnomalyProperties.

Variable IsolationForest : Features -> option (list Z * list Q).

Local Open Scope Q_scope.

Lemma Qmin_cases x y : Qmin x y = x \/ Qmin x y = y.
Proof. unfold Qmin, GenericMinMax.gmin. destruct (x ?= y); auto. Qed.

Lemma Qmax_cases x y : Qmax x y = x \/ Qmax x y = y.
Proof. unfold Qmax, GenericMinMax.gmax. destruct (x ?= y); auto. Qed.

Lemma fold_Qmin_init l x : fold_left Qmin l x <= x.
Proof.
  revert x. induction l as [|z l IH]; intros x; simpl; [apply Qle_refl|].
  eapply Qle_trans; [apply IH|apply Q.le_min_l].
Qed.

Lemma fold_Qmax_init l x : x <= fold_left Qmax l x.
Proof.
  revert x. induction l as [|z l IH]; intros x; simpl; [apply Qle_refl|].
  eapply Qle_trans; [apply Q.le_max_l|apply IH].
Qed.

Lemma fold_Qmin_le l x y :
  y ∈ x :: l -> fold_left Qmin l x <= y.
Proof.
  revert x. induction l as [|z l IH]; intros x Hy; simpl.
  - apply list_elem_of_singleton in Hy as ->. apply Qle_refl.
  - apply elem_of_cons in Hy as [-> | Hy].
    + eapply Qle_trans; [apply fold_Qmin_init|apply Q.le_min_l].
    + apply elem_of_cons in Hy as [-> | Hy].
      * eapply Qle_trans; [apply fold_Qmin_init|apply Q.le_min_r].
      * apply IH. by right.
Qed.

Lemma fold_Qmax_ge l x y :
  y ∈ x :: l -> y <= fold_left Qmax l x.
Proof.
  revert x. induction l as [|z l IH]; intros x Hy; simpl.
  - apply list_elem_of_singleton in Hy as ->. apply Qle_refl.
  - apply elem_of_cons in Hy as [-> | Hy].
    + eapply Qle_trans; [apply Q.le_max_l|apply fold_Qmax_init].
    + apply elem_of_cons in Hy as [-> | Hy].
      * eapply Qle_trans; [apply Q.le_max_r|apply fold_Qmax_init].
      * apply IH. by right.
Qed.

Lemma Qlist_min_le l y : y ∈ l -> Anomaly.Qlist_min l <= y.
Proof. destruct l as [|x l]; [by intros ?%elem_of_nil|]. apply fold_Qmin_le. Qed.

Lemma Qlist_max_ge l y : y ∈ l -> y <= Anomaly.Qlist_max l.
Proof. destruct l as [|x l]; [by intros ?%elem_of_nil|]. apply fold_Qmax_ge. Qed.

(** The normalised score of a row lies in [0, 100): the epsilon keeps it
    below 100. *)
Lemma normalized_range l s : s ∈ l -> 0 <= normalized l s /\ normalized l s < 100.
Proof.
  intros Hs. unfold normalized.
  pose proof (Qlist_min_le l s Hs) as Hlo.
  pose proof (Qlist_max_ge l s Hs) as Hhi.
  set (lo := Anomaly.Qlist_min l) in *. set (hi := Anomaly.Qlist_max l) in *.
  assert (Hden : 0 < hi - lo + (1 # 1000000)) by lra.
  assert (Hratio : 0 <= (s - lo) / (hi - lo + (1 # 1000000))).
  { apply Qle_shift_div_l; [done|]. lra. }
  assert (Hratio' : (s - lo) / (hi - lo + (1 # 1000000)) < 1).
  { apply Qlt_shift_div_r; [done|]. lra. }
  split; lra.
Qed.

Lemma Qtruncate_below_100 x : 0 <= x -> x < 100 -> (0 <= Anomaly.Qtruncate x <= 99)%Z.
Proof.
  destruct x as [n d]. unfold Qle, Qlt, Anomaly.Qtruncate; simpl. intros H0 H100.
  rewrite Z.quot_div_nonneg by lia. split.
  - apply Z.div_pos; lia.
  - enough (n / Z.pos d < 100)%Z by lia. apply Z.div_lt_upper_bound; lia.
Qed.

Lemma masked_score_below_100 l s p :
  s ∈ l ->
  (0 <= Anomaly.Qtruncate
          (Anomaly.Qclip 0 100 (Qabs (normalized l s * Anomaly.outlier_flag p)))
     <= 99)%Z.
Proof.
  intros Hs. destruct (normalized_range l s Hs) as [H0 H100].
  assert (Hx : 0 <= Qabs (normalized l s * Anomaly.outlier_flag p) /\
               Qabs (normalized l s * Anomaly.outlier_flag p) < 100).
  { unfold Anomaly.outlier_flag. destruct (p =? -1)%Z.
    - rewrite Qmult_1_r, Qabs_pos by done. by split.
    - rewrite Qmult_0_r. split; [apply Qle_refl|reflexivity]. }
  destruct Hx as [Hx0 Hx100].
  assert (Hclip : Anomaly.Qclip 0 100 (Qabs (normalized l s * Anomaly.outlier_flag p))
                  == Qabs (normalized l s * Anomaly.outlier_flag p)).
  { unfold Anomaly.Qclip. rewrite Q.min_r by by apply Qlt_le_weak.
    by rewrite Q.max_r. }
  destruct (Qclip_range (Qabs (normalized l s * Anomaly.outlier_flag p)))
    as [Hc0 Hc100].
  apply Qtruncate_below_100; [done|]. by rewrite Hclip.
Qed.

Lemma ml_values_below_100 d i m :
  ml_values (_apply_ml_detection IsolationForest d) !! i = Some m ->
  (0 <= m <= 99)%Z.
Proof.
  unfold _apply_ml_detection.
  destruct (fit_predict_scores _ _) as [[p s]|]; simpl.
  - rewrite masked_scores_lookup.
    destruct (s !! i) as [x|] eqn:Hx; [|done].
    destruct (p !! i) as [y|]; [|done].
    intros [= <-]. apply masked_score_below_100.
    apply list_elem_of_lookup. eauto.
  - unfold zeros. intros [-> _]%lookup_replicate. lia.
Qed.

Lemma fold_Qmin_elem l x : fold_left Qmin l x ∈ x :: l.
Proof.
  revert x. induction l as [|z l IH]; intros x; simpl; [left|].
  destruct (Qmin_cases x z) as [-> | ->].
  - destruct (proj1 (elem_of_cons _ _ _) (IH x)) as [-> | H']; [left|].
    by do 2 right.
  - destruct (proj1 (elem_of_cons _ _ _) (IH z)) as [-> | H']; [right; left|].
    by do 2 right.
Qed.

Lemma fold_Qmax_elem l x : fold_left Qmax l x ∈ x :: l.
Proof.
  revert x. induction l as [|z l IH]; intros x; simpl; [left|].
  destruct (Qmax_cases x z) as [-> | ->].
  - destruct (proj1 (elem_of_cons _ _ _) (IH x)) as [-> | H']; [left|].
    by do 2 right.
  - destruct (proj1 (elem_of_cons _ _ _) (IH z)) as [-> | H']; [right; left|].
    by do 2 right.
Qed.

Lemma Qlist_min_elem l : l <> [] -> Anomaly.Qlist_min l ∈ l.
Proof. destruct l as [|x l]; [done|]. intros _. apply fold_Qmin_elem. Qed.

Lemma Qlist_max_elem l : l <> [] -> Anomaly.Qlist_max l ∈ l.
Proof. destruct l as [|x l]; [done|]. intros _. apply fold_Qmax_elem. Qed.

(** With scores between -1 and 0 the normalised score stays a ten
    thousandth below 100: the scores span at most 1, and the epsilon in
    the denominator is a millionth. *)
Lemma normalized_margin l s :
  (forall y, y ∈ l -> -1 <= y <= 0) -> s ∈ l ->
  0 <= normalized l s /\ normalized l s <= 100 - (1 # 10001).
Proof.
  intros Hrange Hs. unfold normalized.
  assert (Hne : l <> []) by (intros ->; by apply elem_of_nil in Hs).
  pose proof (Qlist_min_le l s Hs) as Hlo.
  pose proof (Qlist_max_ge l s Hs) as Hhi.
  pose proof (Hrange _ (Qlist_min_elem l Hne)) as [Hlo1 _].
  pose proof (Hrange _ (Qlist_max_elem l Hne)) as [_ Hhi0].
  set (lo := Anomaly.Qlist_min l) in *. set (hi := Anomaly.Qlist_max l) in *.
  assert (Hden : 0 < hi - lo + (1 # 1000000)) by lra.
  assert (Hratio : 0 <= (s - lo) / (hi - lo + (1 # 1000000))).
  { apply Qle_shift_div_l; [done|]. lra. }
  assert (Hratio' : (s - lo) / (hi - lo + (1 # 1000000)) <= 1000000 # 1000001).
  { apply Qle_shift_div_r; [done|]. lra. }
  split; lra.
Qed.

(** X7: [_apply_ml_detection] gives one anomaly score per transaction on
    either path, and, the scores of the forest being between -1 and 0 as
    [score_samples] gives them, each anomaly score is an integer from 0 to
    99: the epsilon of the normalisation keeps the normalised score a ten
    thousandth below 100, a margin far above the rounding of binary64. *)
Theorem anomaly_scores_one_per_row_from_0_to_99 d :
  (forall predictions anomaly_scores,
     fit_predict_scores IsolationForest (Anomaly.features d)
     = Some (predictions, anomaly_scores) ->
     forall s, s ∈ anomaly_scores -> -1 <= s <= 0) ->
  length (ml_values (_apply_ml_detection IsolationForest d)) = len d /\
  (forall i m, ml_values (_apply_ml_detection IsolationForest d) !! i = Some m ->
               (0 <= m <= 99)%Z) /\
  (forall predictions anomaly_scores s,
     fit_predict_scores IsolationForest (Anomaly.features d)
     = Some (predictions, anomaly_scores) ->
     s ∈ anomaly_scores ->
     0 <= normalized anomaly_scores s /\
     normalized anomaly_scores s <= 100 - (1 # 10001)).
Proof.
  intros Hrange.
  split; [apply ml_values_length|]. split; [apply ml_values_below_100|].
  intros predictions anomaly_scores s Hfit Hs.
  apply normalized_margin; [|done]. by eapply Hrange.
Qed.

(** X8: the transaction with the lowest forest score, the one the forest finds
    most anomalous, always gets the anomaly score 0, whatever its label:
    the normalisation maps the batch minimum to 0 and is not inverted. *)
Theorem lowest_forest_score_gets_anomaly_score_zero d predictions anomaly_scores i s :
  fit_predict_scores IsolationForest (Anomaly.features d)
    = Some (predictions, anomaly_scores) ->
  anomaly_scores !! i = Some s ->
  (forall y, y ∈ anomaly_scores -> s <= y) ->
  ml_values (_apply_ml_detection IsolationForest d) !! i = Some 0%Z.
Proof.
  intros Hfit Hs Hmin. unfold _apply_ml_detection. rewrite Hfit. simpl.
  rewrite masked_scores_lookup, Hs.
  assert (Hlen : length predictions = length anomaly_scores).
  { unfold fit_predict_scores in Hfit.
    destruct (IsolationForest _) as [[p' s']|]; [|done].
    case_bool_decide as H; [|done]. injection Hfit as <- <-.
    destruct H as (_ & -> & ->). done. }
  destruct (predictions !! i) as [p|] eqn:Hp.
  2: { apply lookup_ge_None in Hp. apply lookup_lt_Some in Hs. lia. }
  f_equal. apply Qtruncate_zero, Qclip_zero.
  assert (Hin : s ∈ anomaly_scores) by (apply list_elem_of_lookup; eauto).
  assert (Hlo : Anomaly.Qlist_min anomaly_scores == s).
  { apply Qle_antisym; [by apply Qlist_min_le|]. apply Hmin.
    destruct anomaly_scores as [|x l]; [by apply elem_of_nil in Hin|].
    simpl. clear. revert x. induction l as [|z l IH]; intros x; simpl.
    - left.
    - destruct (Qmin_cases x z) as [-> | ->].
      + destruct (proj1 (elem_of_cons _ _ _) (IH x)) as [-> | H']; [left|].
        by do 2 right.
      + destruct (proj1 (elem_of_cons _ _ _) (IH z)) as [-> | H'];
          [right; left|]. by do 2 right. }
  assert (Hn : normalized anomaly_scores s == 0).
  { unfold normalized. rewrite Hlo. unfold Qdiv.
    setoid_replace (s - s) with 0 using relation Qeq by ring.
    by rewrite !Qmult_0_l. }
  by rewrite Hn, Qmult_0_l.
Qed.

End AnomalyProperties.

(** Witness: the scaled forest scores the amounts 1, 5, 3, 2000, 1800
    between -1 and 0; the anomaly score of the amount 1800 is 10. *)
Lemma anomaly_scores_one_per_row_from_0_to_99_witness :
  length (ml_values (_apply_ml_detection Cases.scaled Sample.five_rows)) = 5%nat /\
  0 <= 10 <= 99.
Proof.
  destruct (anomaly_scores_one_per_row_from_0_to_99 Cases.scaled
              Sample.five_rows) as (Hlen & H & _).
  - intros predictions anomaly_scores Hfit. vm_compute in Hfit.
    injection Hfit as <- <-. intros s Hs. rewrite !elem_of_cons in Hs.
    destruct Hs as [-> | [-> | [-> | [-> | [-> | Hs]]]]];
      [split; discriminate..|by apply elem_of_nil in Hs].
  - split; [exact Hlen|]. apply (H 4%nat 10). vm_compute. reflexivity.
Defined.

(** Witness: the row with amount 2000 has the lowest score, -2000, is
    labelled an outlier, and gets 0. *)
Lemma lowest_forest_score_gets_anomaly_score_zero_witness :
  ml_values (_apply_ml_detection Sample.by_amount Sample.five_rows) !! 3%nat
  = Some 0.
Proof.
  apply (lowest_forest_score_gets_anomaly_score_zero Sample.by_amount
           Sample.five_rows [1; 1; 1; -1; -1]
           [-(1); -(5); -(3); -(2000); -(1800)]%Q 3%nat (-(2000))%Q
           eq_refl eq_refl).
  intros y Hy. rewrite !elem_of_cons in Hy.
  destruct Hy as [-> | [-> | [-> | [-> | [-> | Hy]]]]];
    [discriminate..|by apply elem_of_nil in Hy].
Defined.

(** ** Duplicate alerts *)

Section DuplicateProperties.

Implicit Types (df : DataFrame) (col : list cell) (b : cell) (rs : list Z).

(** What a selection can count is bounded by its mask. *)
Lemma mask_count_select_le (mask : list bool) (p : Z -> bool) rs :
  mask_count (p <$> select mask rs) <= mask_count mask.
Proof.
  revert rs. induction mask as [|m mask IH]; intros rs; [done|].
  pose proof (mask_count_nonneg mask) as Hnn.
  destruct rs as [|r rs].
  - cbn [select]. simpl. destruct m; lia.
  - specialize (IH rs). destruct m; cbn [select].
    + rewrite fmap_cons. cbn [mask_count]. destruct (p r); lia.
    + cbn [mask_count]. lia.
Qed.

Lemma high_risk_of_le_count col rs b :
  high_risk_of col rs b <= Gain.txn_count col b.
Proof. apply mask_count_select_le. Qed.

(** The entries the loop of [detect_duplicates] visits. *)
Lemma duplicate_entries_nil col :
  counts_above 1 (value_counts col) = [] <-> forall b, Gain.txn_count col b <= 1.
Proof.
  split.
  - intros Hnil b. destruct (Z.le_gt_cases (Gain.txn_count col b) 1) as [|Hb]; [done|].
    assert (Hin : (b, Gain.txn_count col b) ∈ counts_above 1 (value_counts col)).
    { apply elem_of_counts_above; [lia|]. split; [done|lia]. }
    rewrite Hnil in Hin. by apply elem_of_nil in Hin.
  - intros Hall. destruct (counts_above 1 (value_counts col)) as [|[b c] l] eqn:He; [done|].
    assert (Hin : (b, c) ∈ counts_above 1 (value_counts col)) by (rewrite He; left).
    apply elem_of_counts_above in Hin as [-> Hc]; [|lia].
    specialize (Hall b). lia.
Qed.

(** X9: called on a frame that has the beneficiary column but has not been
    scored, [detect_duplicates] raises KeyError as soon as some beneficiary
    occurs more than once: the loop body reads the [risk_score] column.
    When no beneficiary repeats the loop body never runs and the result is
    the empty list. *)
Theorem duplicates_of_unscored_frame_raise_or_empty df col :
  beneficiary_id df = Some col -> risk_score df = None ->
  ((exists b, 1 < Gain.txn_count col b) -> detect_duplicates df = Raises KeyError) /\
  ((forall b, Gain.txn_count col b <= 1) -> detect_duplicates df = Returns []).
Proof.
  intros Hcol Hrs. unfold detect_duplicates. rewrite Hcol. split.
  - intros [b Hb].
    destruct (counts_above 1 (value_counts col)) as [|[b' c] l] eqn:He.
    + pose proof (proj1 (duplicate_entries_nil col) He b). lia.
    + cbn [Duplicates.for_each]. unfold Duplicates.step. by rewrite Hrs.
  - intros Hall. by rewrite (proj2 (duplicate_entries_nil col) Hall).
Qed.

(** X10: in every list of alerts [detect_duplicates] returns, an alert counts at
    least two transactions, at least one of them high-risk, and never more
    high-risk transactions than transactions. *)
Theorem alert_counts_are_consistent df alerts a :
  detect_duplicates df = Returns alerts -> a ∈ alerts ->
  2 <= Transaction_Count a /\ 1 <= High_Risk_Txns a <= Transaction_Count a.
Proof.
  intros Hrun Ha.
  destruct (beneficiary_id df) as [col|] eqn:Hcol.
  2: { unfold detect_duplicates in Hrun. rewrite Hcol in Hrun.
       injection Hrun as <-. by apply elem_of_nil in Ha. }
  destruct (risk_score df) as [rs|] eqn:Hrs.
  - rewrite (detect_duplicates_scored _ _ _ Hcol Hrs) in Hrun.
    injection Hrun as <-.
    apply list_elem_of_fmap in Ha as (b & -> & Hb). cbn.
    apply list_elem_of_filter in Hb as [Hhigh Hb].
    apply list_elem_of_fmap in Hb as ([b' c] & -> & Hb).
    apply elem_of_counts_above in Hb as [-> Hc]; [|lia]. cbn [fst] in *.
    pose proof (high_risk_of_le_count col rs b'). lia.
  - destruct (counts_above 1 (value_counts col)) as [|[b c] l] eqn:He.
    + unfold detect_duplicates in Hrun. rewrite Hcol, He in Hrun.
      injection Hrun as <-. by apply elem_of_nil in Ha.
    + unfold detect_duplicates in Hrun. rewrite Hcol, He in Hrun.
      cbn [Duplicates.for_each] in Hrun. unfold Duplicates.step in Hrun.
      rewrite Hrs in Hrun. discriminate.
Qed.

Lemma insert_desc_sorted x l :
  StronglySorted by_count_desc l -> StronglySorted by_count_desc (insert_desc x l).
Proof.
  induction 1 as [|y l Hl IH Hy]; simpl.
  - repeat constructor.
  - destruct (Z.leb_spec (snd y) (snd x)) as [Hle|Hgt].
    + constructor; [by constructor|]. constructor; [exact Hle|].
      eapply Forall_impl; [exact Hy|]. unfold by_count_desc. intros z Hz. simpl in Hz. lia.
    + constructor; [exact IH|].
      rewrite insert_desc_perm. constructor; [unfold by_count_desc; lia|exact Hy].
Qed.

Lemma sort_desc_sorted l : StronglySorted by_count_desc (sort_desc l).
Proof.
  induction l as [|x l IH]; simpl; [constructor|]. by apply insert_desc_sorted.
Qed.

Lemma StronglySorted_filter {A} (R : A -> A -> Prop) (P : A -> Prop)
  `{forall x, Decision (P x)} l :
  StronglySorted R l -> StronglySorted R (filter P l).
Proof.
  induction 1 as [|x l Hl IH Hx]; [constructor|].
  rewrite filter_cons. destruct (decide (P x)); [|exact IH].
  constructor; [exact IH|]. apply Forall_forall. intros y Hy.
  apply list_elem_of_filter in Hy as [_ Hy].
  rewrite Forall_forall in Hx. by apply Hx.
Qed.

Lemma StronglySorted_fmap_by {A B} (R : A -> A -> Prop) (R' : B -> B -> Prop)
  (f : A -> B) l :
  (forall x y, x ∈ l -> y ∈ l -> R x y -> R' (f x) (f y)) ->
  StronglySorted R l -> StronglySorted R' (f <$> l).
Proof.
  intros Hf Hl. induction Hl as [|x l Hl IH Hx]; [constructor|].
  rewrite fmap_cons. constructor.
  - apply IH. intros y z Hy Hz. apply Hf; by right.
  - apply Forall_fmap. apply Forall_forall. intros y Hy. simpl.
    apply Hf; [left|by right|]. rewrite Forall_forall in Hx. by apply Hx.
Qed.

(** X11: the alerts come in the order of [value_counts]: by descending number
    of transactions. *)
Theorem alerts_are_in_descending_transaction_count df alerts :
  detect_duplicates df = Returns alerts ->
  StronglySorted (fun a a' => Transaction_Count a' <= Transaction_Count a) alerts.
Proof.
  intros Hrun.
  destruct (beneficiary_id df) as [col|] eqn:Hcol.
  2: { unfold detect_duplicates in Hrun. rewrite Hcol in Hrun.
       injection Hrun as <-. constructor. }
  destruct (risk_score df) as [rs|] eqn:Hrs.
  - rewrite (detect_duplicates_scored _ _ _ Hcol Hrs) in Hrun.
    injection Hrun as <-.
    apply (StronglySorted_fmap_by
             (fun b b' => Gain.txn_count col b' <= Gain.txn_count col b));
      [done|].
    apply StronglySorted_filter.
    apply (StronglySorted_fmap_by by_count_desc).
    + intros [b c] [b' c'] Hb Hb' Hle.
      apply elem_of_counts_above in Hb as [-> _]; [|lia].
      apply elem_of_counts_above in Hb' as [-> _]; [|lia]. exact Hle.
    + unfold counts_above. apply StronglySorted_filter.
      unfold value_counts. apply sort_desc_sorted.
  - unfold detect_duplicates in Hrun. rewrite Hcol in Hrun.
    destruct (counts_above 1 (value_counts col)) as [|[b c] l] eqn:He.
    + injection Hrun as <-. constructor.
    + cbn [Duplicates.for_each] in Hrun. unfold Duplicates.step in Hrun.
      rewrite Hrs in Hrun. discriminate.
Qed.

End DuplicateProperties.

(** ** Fusion thresholds and the frames a call returns *)

Section FusionProperties.

Variable IsolationForest : Features -> option (list Z * list Q).

Lemma level_high x : Fusion.level x = Badge.high <-> 75 <= x.
Proof.
  unfold Fusion.level, Badge.high.
  destruct (Z.ltb_spec x 50), (Z.ltb_spec x 75); split; (done || lia).
Qed.

Lemma level_medium x : Fusion.level x = Badge.medium <-> 50 <= x < 75.
Proof.
  unfold Fusion.level, Badge.medium.
  destruct (Z.ltb_spec x 50), (Z.ltb_spec x 75); split; (done || lia).
Qed.

Lemma level_low x : Fusion.level x = Badge.low <-> x < 50.
Proof.
  unfold Fusion.level, Badge.low.
  destruct (Z.ltb_spec x 50), (Z.ltb_spec x 75); split; (done || lia).
Qed.

(** The fused score of a reachable rule score, between its two bounds. *)
Lemma fuse_bounds r m :
  r ∈ rule_scores_reached -> 0 <= m <= 100 ->
  10 * Fusion.fuse r m <= 6 * r + 4 * m < 10 * Fusion.fuse r m + 10.
Proof.
  intros Hr Hm. rewrite (fuse_exact r m Hr Hm), weighted_floor_div.
  pose proof (Z.mul_div_le (6 * r + 4 * m) 10 ltac:(lia)).
  pose proof (Z.mul_succ_div_gt (6 * r + 4 * m) 10 ltac:(lia)). lia.
Qed.

Lemma rule_scores_reached_cases r :
  r ∈ rule_scores_reached ->
  r = 0 \/ r = 15 \/ r = 25 \/ r = 30 \/ r = 40 \/ r = 45 \/ r = 55 \/ r = 60 \/
  r = 65 \/ r = 70 \/ r = 75 \/ r = 80 \/ r = 85 \/ r = 95 \/ r = 100.
Proof.
  unfold rule_scores_reached. rewrite !elem_of_cons, elem_of_nil. tauto.
Qed.

(** X12: a row reaches a risk score of 75, the High badge, only when both
    detectors speak: its rule score is at least 60 and its anomaly score at
    least 38.  Rules alone stop at 60. *)
Theorem high_risk_needs_rules_and_anomaly d i x :
  fused IsolationForest d !! i = Some x -> 75 <= x ->
  exists r m,
    _apply_rules d !! i = Some r /\
    ml_values (_apply_ml_detection IsolationForest d) !! i = Some m /\
    60 <= r /\ 38 <= m.
Proof.
  rewrite risk_scores_lookup.
  destruct (_apply_rules d !! i) as [r|] eqn:Hr; [|discriminate].
  destruct (ml_values _ !! i) as [m|] eqn:Hm; [|discriminate].
  intros [= <-] Hx. exists r, m. split; [done|]. split; [done|].
  pose proof (rule_score_reached _ _ _ Hr) as Hreached.
  pose proof (ml_values_range IsolationForest _ _ _ Hm) as Hm100.
  pose proof (fuse_bounds r m Hreached ltac:(lia)) as Hb.
  apply rule_scores_reached_cases in Hreached. lia.
Qed.

(** The risk scores of a frame that [detect_fraud] returns. *)
Lemma returned_scores d i x :
  _apply_ml_detection IsolationForest d = SeriesOf (zeros (len d)) ->
  fused IsolationForest d !! i = Some x ->
  exists r, _apply_rules d !! i = Some r /\ r ∈ rule_scores_reached /\
            10 * x <= 6 * r < 10 * x + 10.
Proof.
  intros Hml. rewrite risk_scores_lookup, Hml. simpl.
  destruct (_apply_rules d !! i) as [r|] eqn:Hr; [|discriminate].
  destruct (zeros (len d) !! i) as [m|] eqn:Hm; [|discriminate].
  unfold zeros in Hm. apply lookup_replicate in Hm as [-> _].
  intros [= <-]. exists r. split; [done|].
  pose proof (rule_score_reached _ _ _ Hr) as Hreached. split; [done|].
  pose proof (fuse_bounds r 0 Hreached ltac:(lia)). lia.
Qed.

Lemma rules_of_scored d ml :
  _apply_rules (scored IsolationForest d ml) = _apply_rules d.
Proof. reflexivity. Qed.

(** X13: a call returns only when the forest could not be fitted, so in a frame
    it returns every risk score is at most 60 and no row carries the High
    badge; a row carries the Medium badge exactly when its rule score is
    85 or more. *)
Theorem returned_frame_has_no_high_risk_row st df st' results :
  detect_fraud IsolationForest df st = (st', Returns results) ->
  exists frame scores levels,
    st' !! results = Some frame /\
    risk_score frame = Some scores /\ risk_level frame = Some levels /\
    (forall i x, scores !! i = Some x -> 0 <= x <= 60) /\
    (forall i lv, levels !! i = Some lv -> lv <> Badge.high) /\
    (forall i r lv, _apply_rules frame !! i = Some r -> levels !! i = Some lv ->
                    (lv = Badge.medium <-> 85 <= r)).
Proof.
  intros Hrun.
  destruct (detect_fraud_returns _ _ _ _ _ Hrun) as (d & Hd & Hml & -> & ->).
  exists (scored IsolationForest d (zeros (len d))), (fused IsolationForest d),
    (Fusion.level <$> fused IsolationForest d).
  split; [apply lookup_snoc|]. split; [done|]. split; [done|].
  split; [|split].
  - intros i x Hx.
    destruct (returned_scores d i x Hml Hx) as (r & Hr & Hreached & Hb).
    pose proof (rule_score_range _ _ _ Hr). lia.
  - intros i lv. rewrite list_lookup_fmap.
    destruct (fused IsolationForest d !! i) as [x|] eqn:Hx; [|discriminate].
    intros [= <-]. rewrite level_high.
    destruct (returned_scores d i x Hml Hx) as (r & Hr & Hreached & Hb).
    pose proof (rule_score_range _ _ _ Hr). lia.
  - intros i r lv. rewrite rules_of_scored, list_lookup_fmap. intros Hr.
    destruct (fused IsolationForest d !! i) as [x|] eqn:Hx; [|discriminate].
    intros [= <-]. rewrite level_medium.
    destruct (returned_scores d i x Hml Hx) as (r' & Hr' & Hreached & Hb).
    assert (r' = r) as -> by congruence.
    pose proof (rule_score_range _ _ _ Hr).
    apply rule_scores_reached_cases in Hreached. lia.
Qed.

End FusionProperties.

(** ** The dashboard's metrics and exports *)

Section AppProperties.

Variable IsolationForest : Features -> option (list Z * list Q).

Implicit Types (df : DataFrame) (scores : list Z).

Lemma summary_counts_cons x scores :
  App.high_risk (x :: scores) = (if 75 <=? x then 1 else 0) + App.high_risk scores /\
  App.medium_risk (x :: scores)
  = (if (50 <=? x) && (x <? 75) then 1 else 0) + App.medium_risk scores /\
  App.low_risk (x :: scores) = (if x <? 50 then 1 else 0) + App.low_risk scores.
Proof. done. Qed.

Lemma summary_counts_partition scores :
  App.high_risk scores + App.medium_risk scores + App.low_risk scores
  = Z.of_nat (length scores).
Proof.
  induction scores as [|x scores IH]; [done|].
  destruct (summary_counts_cons x scores) as (-> & -> & ->).
  cbn [length]. rewrite Nat2Z.inj_succ.
  destruct (Z.leb_spec 75 x), (Z.leb_spec 50 x), (Z.ltb_spec x 75),
    (Z.ltb_spec x 50); cbn [andb]; lia.
Qed.

Lemma badge_count_cons badge lv levels :
  Badge.count badge (lv :: levels)
  = (if bool_decide (lv = badge) then 1 else 0) + Badge.count badge levels.
Proof. done. Qed.

Lemma badge_tests x :
  bool_decide (Fusion.level x = Badge.high) = (75 <=? x) /\
  bool_decide (Fusion.level x = Badge.medium) = (50 <=? x) && (x <? 75) /\
  bool_decide (Fusion.level x = Badge.low) = (x <? 50).
Proof.
  unfold Fusion.level.
  destruct (Z.ltb_spec x 50), (Z.ltb_spec x 75), (Z.leb_spec 75 x),
    (Z.leb_spec 50 x); try lia; done.
Qed.

Lemma summary_counts_badges scores :
  App.high_risk scores = Badge.count Badge.high (Fusion.level <$> scores) /\
  App.medium_risk scores = Badge.count Badge.medium (Fusion.level <$> scores) /\
  App.low_risk scores = Badge.count Badge.low (Fusion.level <$> scores).
Proof.
  induction scores as [|x scores (IH1 & IH2 & IH3)]; [done|].
  destruct (summary_counts_cons x scores) as (-> & -> & ->).
  destruct (badge_tests x) as (Hh & Hm & Hl).
  rewrite fmap_cons, !badge_count_cons, <- IH1, <- IH2, <- IH3.
  by rewrite Hh, Hm, Hl.
Qed.

(** X14: the three risk metrics of the dashboard split the transactions: on a
    frame with one risk score per row they add up to the total, and they
    count the rows that [detect_fraud] badges High, Medium and Low. *)
Theorem summary_metrics_partition_rows_by_badge df scores :
  risk_score df = Some scores -> length scores = len df ->
  exists s,
    App.summary df = Returns s /\
    App.high s + App.medium s + App.low s = App.total_txns s /\
    App.high s = Badge.count Badge.high (Fusion.level <$> scores) /\
    App.medium s = Badge.count Badge.medium (Fusion.level <$> scores) /\
    App.low s = Badge.count Badge.low (Fusion.level <$> scores).
Proof.
  intros Hrs Hlen. unfold App.summary. rewrite Hrs. eexists. split; [done|].
  cbn. rewrite <- Hlen. split; [apply summary_counts_partition|].
  apply summary_counts_badges.
Qed.

Lemma select_length {A} (mask : list bool) (col : list A) :
  (length mask <= length col)%nat ->
  Z.of_nat (length (select mask col)) = mask_count mask.
Proof.
  revert col. induction mask as [|b mask IH]; intros col Hlen; [done|].
  destruct col as [|x col]; [simpl in Hlen; lia|].
  specialize (IH col ltac:(simpl in Hlen; lia)).
  cbn [select mask_count]. destruct b; cbn [length]; lia.
Qed.

Lemma select_by_test {A} (p : A -> bool) (col : list A) x :
  x ∈ select (p <$> col) col <-> x ∈ col /\ p x = true.
Proof.
  induction col as [|y col IH].
  - split; [by intros ?%elem_of_nil|by intros [?%elem_of_nil _]].
  - rewrite fmap_cons. cbn [select]. destruct (p y) eqn:Hy.
    + rewrite !elem_of_cons, IH. split; [|tauto].
      intros [-> | [? ?]]; tauto.
    + rewrite elem_of_cons, IH. split; [tauto|].
      intros [[-> | ?] ?]; [congruence|tauto].
Qed.

(** X15: the high-risk export holds as many rows as the High Risk metric
    counts, and its risk scores are the scores of 75 or more. *)
Theorem high_risk_export_has_the_rows_the_metric_counts df scores :
  risk_score df = Some scores -> length scores = len df ->
  exists export kept,
    App.high_risk_rows df = Returns export /\
    risk_score export = Some kept /\
    Z.of_nat (len export) = App.high_risk scores /\
    Z.of_nat (length kept) = App.high_risk scores /\
    (forall x, x ∈ kept <-> x ∈ scores /\ 75 <= x).
Proof.
  intros Hrs Hlen. unfold App.high_risk_rows. rewrite Hrs.
  eexists _, _. split; [done|]. cbn. rewrite Hrs. split; [done|].
  unfold App.high_risk. split; [|split].
  - apply select_length. rewrite length_fmap. unfold len in Hlen. lia.
  - apply select_length. by rewrite length_fmap.
  - intros x. rewrite (select_by_test (fun x => 75 <=? x)). by rewrite Z.leb_le.
Qed.

Lemma high_risk_zero scores :
  (forall i x, scores !! i = Some x -> x < 75) -> App.high_risk scores = 0.
Proof.
  induction scores as [|x scores IH]; intros Hall; [done|].
  destruct (summary_counts_cons x scores) as (-> & _).
  rewrite IH by (intros i y Hy; apply (Hall (S i) y Hy)).
  pose proof (Hall 0%nat x eq_refl). destruct (Z.leb_spec 75 x); lia.
Qed.

(** X16: the dashboard run on a frame that [detect_fraud] returned: the
    metrics, the high-risk export and the duplicate detection all find
    their [risk_score] column, the High Risk metric is 0 and the export has
    no row. *)
Theorem dashboard_of_a_returned_frame_shows_no_high_risk (st : store) (df : loc) st' results :
  detect_fraud IsolationForest df st = (st', Returns results) ->
  exists frame s export alerts,
    st' !! results = Some frame /\
    App.summary frame = Returns s /\ App.high s = 0 /\
    App.medium s + App.low s = App.total_txns s /\
    App.high_risk_rows frame = Returns export /\ len export = 0%nat /\
    detect_duplicates frame = Returns alerts.
Proof.
  intros Hrun.
  destruct (detect_fraud_returns _ _ _ _ _ Hrun) as (d & Hd & Hml & -> & ->).
  set (frame := scored IsolationForest d (zeros (len d))).
  assert (Hrs : risk_score frame = Some (fused IsolationForest d)) by done.
  assert (Hlen : length (fused IsolationForest d) = len frame)
    by exact (risk_scores_length IsolationForest d).
  assert (Hhigh : App.high_risk (fused IsolationForest d) = 0).
  { apply high_risk_zero. intros i x Hx.
    destruct (returned_scores IsolationForest d i x Hml Hx) as (r & Hr & _ & Hb).
    pose proof (rule_score_range _ _ _ Hr). lia. }
  pose proof (summary_counts_partition (fused IsolationForest d)) as Hsum.
  assert (Hexport : Z.of_nat (len (App.filter_rows
                      ((fun x => 75 <=? x) <$> fused IsolationForest d) frame))
                    = App.high_risk (fused IsolationForest d)).
  { apply select_length. rewrite length_fmap. unfold len in Hlen. lia. }
  destruct (detect_duplicates frame) as [alerts|e] eqn:Hdup.
  - exists frame, {| App.total_txns := Z.of_nat (len frame);
                     App.high := App.high_risk (fused IsolationForest d);
                     App.medium := App.medium_risk (fused IsolationForest d);
                     App.low := App.low_risk (fused IsolationForest d) |},
      (App.filter_rows ((fun x => 75 <=? x) <$> fused IsolationForest d) frame),
      alerts.
    split; [apply lookup_snoc|]. split; [done|]. cbn [App.high App.medium App.low App.total_txns].
    split; [done|]. split; [lia|]. split; [done|]. split; [lia|done].
  - exfalso. unfold detect_duplicates in Hdup.
    destruct (beneficiary_id frame) as [col|] eqn:Hcol; [|discriminate].
    fold (detect_duplicates frame) in Hdup.
    assert (Hdup' : detect_duplicates frame = Raises e).
    { unfold detect_duplicates. by rewrite Hcol. }
    by rewrite (detect_duplicates_scored _ _ _ Hcol Hrs) in Hdup'.
Qed.

End AppProperties.

(** ** Scoring again, and what a call leaves alone *)

Section RescoreProperties.

Variable IsolationForest : Features -> option (list Z * list Q).

(** The annotations are computed from the input columns only. *)
Lemma ml_detection_of_scored d ml :
  _apply_ml_detection IsolationForest (scored IsolationForest d ml)
  = _apply_ml_detection IsolationForest d.
Proof. reflexivity. Qed.

Lemma scored_of_scored d ml :
  scored IsolationForest (scored IsolationForest d ml) ml
  = scored IsolationForest d ml.
Proof. reflexivity. Qed.

(** X17: scoring a frame that [detect_fraud] returned returns a frame with the
    same columns again: the rules, the features of the forest and the
    explanations read none of the three annotation columns, and the call
    replaces all three. *)
Theorem rescoring_a_returned_frame_repeats_it (st : store) (df : loc) st' results :
  detect_fraud IsolationForest df st = (st', Returns results) ->
  exists frame,
    st' !! results = Some frame /\
    detect_fraud IsolationForest results st'
    = (st' ++ [frame], Returns (length st')).
Proof.
  intros Hrun.
  destruct (detect_fraud_returns _ _ _ _ _ Hrun) as (d & Hd & Hml & -> & ->).
  eexists. split; [apply lookup_snoc|].
  rewrite (detect_fraud_run _ _ _ _ (lookup_snoc _ _)).
  rewrite ml_detection_of_scored, Hml.
  change (len (scored IsolationForest d (zeros (len d)))) with (len d).
  by rewrite scored_of_scored.
Qed.

(** X18: the frame a call returns agrees with the batch on every input column;
    the batch itself is still in the store, unchanged, and the three
    annotation columns of the result hold one entry per row. *)
Theorem returned_frame_keeps_the_input_columns (st : store) (df : loc) st' results :
  detect_fraud IsolationForest df st = (st', Returns results) ->
  exists d frame,
    st !! df = Some d /\ st' !! df = Some d /\ st' !! results = Some frame /\
    amount frame = amount d /\
    beneficiary_id frame = beneficiary_id d /\
    timestamp frame = timestamp d /\
    account_number frame = account_number d /\
    scheme frame = scheme d /\
    region frame = region d /\
    duplicate_flag frame = duplicate_flag d /\
    (exists scores, risk_score frame = Some scores /\ length scores = len d) /\
    (exists reasons, fraud_indicators frame = Some reasons /\ length reasons = len d) /\
    (exists levels, risk_level frame = Some levels /\ length levels = len d).
Proof.
  intros Hrun.
  pose proof (detect_fraud_preserves_store _ _ _ _ _ Hrun) as Hkeep.
  destruct (detect_fraud_returns _ _ _ _ _ Hrun) as (d & Hd & Hml & -> & ->).
  exists d, (scored IsolationForest d (zeros (len d))).
  split; [done|]. split; [by apply Hkeep|]. split; [apply lookup_snoc|].
  do 7 (split; [done|]). split; [|split].
  - eexists. split; [done|]. apply risk_scores_length.
  - eexists. split; [done|]. unfold explanations.
    by rewrite length_imap, rows_length.
  - eexists. split; [done|]. rewrite length_fmap. apply risk_scores_length.
Qed.

End RescoreProperties.

(** ** Instances of the further properties *)

(** Witness: three unscored transactions of one beneficiary raise
    KeyError; two unscored transactions of two beneficiaries give no
    alert. *)
Lemma duplicates_of_unscored_frame_raise_or_empty_witness :
  detect_duplicates Burst.no_timestamp = Raises KeyError /\
  detect_duplicates Cases.distinct_beneficiaries = Returns [].
Proof.
  split.
  - apply (duplicates_of_unscored_frame_raise_or_empty Burst.no_timestamp _
             eq_refl eq_refl).
    exists (Some "B1"%string). vm_compute. reflexivity.
  - apply (duplicates_of_unscored_frame_raise_or_empty
             Cases.distinct_beneficiaries _ eq_refl eq_refl).
    intros [b|]; [|vm_compute; discriminate].
    unfold Gain.txn_count. cbn.
    repeat case_bool_decide; (congruence || lia).
Defined.

(** Witness: the alert for B counts three transactions, two of them
    high-risk. *)
Lemma alert_counts_are_consistent_witness :
  exists a a',
    detect_duplicates Cases.two_alerts = Returns [a; a'] /\
    Beneficiary_ID a = Some "B"%string /\
    2 <= Transaction_Count a /\ 1 <= High_Risk_Txns a <= Transaction_Count a.
Proof.
  eexists _, _.
  assert (Hrun : detect_duplicates Cases.two_alerts = Returns [_; _])
    by (vm_compute; reflexivity).
  split; [exact Hrun|]. split; [reflexivity|].
  apply (alert_counts_are_consistent _ _ _ Hrun). left.
Defined.

(** Witness: B, with three transactions, comes before A, with two,
    although A occurs first in the batch. *)
Lemma alerts_are_in_descending_transaction_count_witness :
  exists a a',
    detect_duplicates Cases.two_alerts = Returns [a; a'] /\
    Transaction_Count a = 3 /\ Transaction_Count a' = 2 /\
    StronglySorted (fun a a' => Transaction_Count a' <= Transaction_Count a)
      [a; a'].
Proof.
  eexists _, _.
  assert (Hrun : detect_duplicates Cases.two_alerts = Returns [_; _])
    by (vm_compute; reflexivity).
  split; [exact Hrun|]. split; [reflexivity|]. split; [reflexivity|].
  apply (alerts_are_in_descending_transaction_count _ _ Hrun).
Defined.

(** Witness: the amount 2000 has rule score 85 and anomaly score 99, and
    the risk score 90. *)
Lemma high_risk_needs_rules_and_anomaly_witness :
  exists r m,
    _apply_rules Sample.five_rows !! 3%nat = Some r /\
    ml_values (_apply_ml_detection Cases.rising Sample.five_rows) !! 3%nat
    = Some m /\
    60 <= r /\ 38 <= m.
Proof.
  apply (high_risk_needs_rules_and_anomaly Cases.rising Sample.five_rows
           3%nat 90); [vm_compute; reflexivity|lia].
Defined.

(** Witness: with a forest that cannot be fitted, the amounts 1000 and 250
    get the risk scores 51 and 0. *)
Lemma returned_frame_has_no_high_risk_row_witness :
  exists frame scores levels,
    [Sample.two_rows; scored Sample.unfit Sample.two_rows [0; 0]] !! 1%nat
    = Some frame /\
    risk_score frame = Some scores /\ risk_level frame = Some levels /\
    (forall i x, scores !! i = Some x -> 0 <= x <= 60) /\
    (forall i lv, levels !! i = Some lv -> lv <> Badge.high) /\
    (forall i r lv, _apply_rules frame !! i = Some r -> levels !! i = Some lv ->
                    (lv = Badge.medium <-> 85 <= r)).
Proof.
  apply (returned_frame_has_no_high_risk_row Sample.unfit [Sample.two_rows]
           0%nat).
  vm_compute. reflexivity.
Defined.

(** Witness: the scores 0, 49, 50, 74, 75, 100 give two rows of each
    badge. *)
Lemma summary_metrics_partition_rows_by_badge_witness :
  exists s,
    App.summary Cases.mixed_scores = Returns s /\
    App.high s + App.medium s + App.low s = App.total_txns s /\
    App.high s
    = Badge.count Badge.high (Fusion.level <$> [0; 49; 50; 74; 75; 100]) /\
    App.medium s
    = Badge.count Badge.medium (Fusion.level <$> [0; 49; 50; 74; 75; 100]) /\
    App.low s
    = Badge.count Badge.low (Fusion.level <$> [0; 49; 50; 74; 75; 100]).
Proof.
  apply (summary_metrics_partition_rows_by_badge Cases.mixed_scores
           [0; 49; 50; 74; 75; 100] eq_refl eq_refl).
Defined.

(** Witness: of the scores 0, 49, 50, 74, 75, 100 the export keeps the two
    rows with 75 and 100. *)
Lemma high_risk_export_has_the_rows_the_metric_counts_witness :
  exists export kept,
    App.high_risk_rows Cases.mixed_scores = Returns export /\
    risk_score export = Some kept /\
    Z.of_nat (len export) = App.high_risk [0; 49; 50; 74; 75; 100] /\
    Z.of_nat (length kept) = App.high_risk [0; 49; 50; 74; 75; 100] /\
    (forall x, x ∈ kept <-> x ∈ [0; 49; 50; 74; 75; 100] /\ 75 <= x).
Proof.
  apply (high_risk_export_has_the_rows_the_metric_counts Cases.mixed_scores
           [0; 49; 50; 74; 75; 100] eq_refl eq_refl).
Defined.

(** Witness: the dashboard of the two amounts 1000 and 250, scored without
    a fitted forest. *)
Lemma dashboard_of_a_returned_frame_shows_no_high_risk_witness :
  exists frame s export alerts,
    [Sample.two_rows; scored Sample.unfit Sample.two_rows [0; 0]] !! 1%nat
    = Some frame /\
    App.summary frame = Returns s /\ App.high s = 0 /\
    App.medium s + App.low s = App.total_txns s /\
    App.high_risk_rows frame = Returns export /\ len export = 0%nat /\
    detect_duplicates frame = Returns alerts.
Proof.
  apply (dashboard_of_a_returned_frame_shows_no_high_risk Sample.unfit
           [Sample.two_rows] 0%nat).
  vm_compute. reflexivity.
Defined.

(** Witness: scoring the scored frame of the amounts 1000 and 250 appends
    the same frame once more. *)
Lemma rescoring_a_returned_frame_repeats_it_witness :
  exists frame,
    [Sample.two_rows; scored Sample.unfit Sample.two_rows [0; 0]] !! 1%nat
    = Some frame /\
    detect_fraud Sample.unfit 1%nat
      [Sample.two_rows; scored Sample.unfit Sample.two_rows [0; 0]]
    = ([Sample.two_rows; scored Sample.unfit Sample.two_rows [0; 0]] ++ [frame],
       Returns 2%nat).
Proof.
  apply (rescoring_a_returned_frame_repeats_it Sample.unfit [Sample.two_rows]
           0%nat).
  vm_compute. reflexivity.
Defined.

(** Witness: the amounts 1000 and 250 are in the returned frame and still
    in the batch. *)
Lemma returned_frame_keeps_the_input_columns_witness :
  exists d frame,
    [Sample.two_rows] !! 0%nat = Some d /\
    [Sample.two_rows; scored Sample.unfit Sample.two_rows [0; 0]] !! 0%nat
    = Some d /\
    [Sample.two_rows; scored Sample.unfit Sample.two_rows [0; 0]] !! 1%nat
    = Some frame /\
    amount frame = amount d /\
    beneficiary_id frame = beneficiary_id d /\
    timestamp frame = timestamp d /\
    account_number frame = account_number d /\
    scheme frame = scheme d /\
    region frame = region d /\
    duplicate_flag frame = duplicate_flag d /\
    (exists scores, risk_score frame = Some scores /\ length scores = len d) /\
    (exists reasons, fraud_indicators frame = Some reasons /\ length reasons = len d) /\
    (exists levels, risk_level frame = Some levels /\ length levels = len d).
Proof.
  apply (returned_frame_keeps_the_input_columns Sample.unfit [Sample.two_rows]
           0%nat).
  vm_compute. reflexivity.
Defined.

(** ** Explanations and rules *)

Section ExplanationProperties.

Implicit Types (df : DataFrame) (row : Row) (scores : list Z).

Lemma round_reason_is_no_other a :
  Explain.round_amount <> Explain.high_amount a /\
  Explain.round_amount <> Explain.duplicate /\
  Explain.round_amount <> Explain.nrega /\
  Explain.round_amount <> Explain.pds /\
  Explain.round_amount <> Explain.ml_anomaly /\
  Explain.round_amount <> Explain.low_anomaly.
Proof.
  unfold Explain.high_amount. cbn [String.append Explain.round_amount].
  repeat split; discriminate.
Qed.

(** The round-amount reason is in the list exactly when the test of the
    row's amount holds. *)
Lemma round_reason_iff row rule_score ml_score :
  Explain.round_amount ∈ Explain.reasons row rule_score ml_score <->
  Qeq_bool (Qmod (row_amount row) 1000) 0 = true.
Proof.
  destruct (round_reason_is_no_other (row_amount row))
    as (H1 & H2 & H3 & H4 & H5 & H6).
  unfold Explain.reasons.
  match goal with
  | |- _ ∈ match ?l with [] => _ | _ :: _ => _ end <-> _ => set (L := l)
  end.
  assert (HL : Explain.round_amount ∈ L <->
               Qeq_bool (Qmod (row_amount row) 1000) 0 = true).
  { subst L. rewrite !elem_of_append_if, elem_of_nil. naive_solver. }
  destruct L as [|y l].
  - rewrite list_elem_of_singleton. split; [done|].
    intros Ht. apply HL in Ht. by apply elem_of_nil in Ht.
  - exact HL.
Qed.

Lemma rows_lookup df i row :
  rows df !! i = Some row -> amount df !! i = Some (row_amount row).
Proof.
  unfold rows. rewrite list_lookup_imap.
  destruct (amount df !! i) as [a|]; [|done]. by intros [= <-].
Qed.

(** X19: the rules and the explanations agree on round amounts: the list of
    reasons of a row holds the round-amount reason exactly when the
    round-amount rule added its 15 to that row. *)
Theorem round_reason_shown_exactly_where_round_rule_scores
  df scores i row s rule_score ml_score :
  rows df !! i = Some row -> scores !! i = Some s ->
  (Explain.round_amount ∈ Explain.reasons row rule_score ml_score <->
   Rules.round_amount df scores !! i = Some (s + 15)).
Proof.
  intros Hrow%rows_lookup Hs.
  rewrite round_reason_iff, round_amount_lookup, Hs. unfold Gain.round.
  rewrite mask_at_round_mask, Hrow. simpl.
  destruct (Qeq_bool _ _); split; try done.
  intros [= H]. lia.
Qed.

End ExplanationProperties.

(** Witness: of the amounts 1000 and 250 the first is round: it gains 15
    and shows the reason. *)
Lemma round_reason_shown_exactly_where_round_rule_scores_witness :
  Explain.round_amount
    ∈ Explain.reasons {| row_amount := 1000; row_scheme := None;
                         row_duplicate_flag := None |} 85 0 /\
  Rules.round_amount Sample.two_rows [70; 0] !! 0%nat = Some (70 + 15).
Proof.
  pose proof (round_reason_shown_exactly_where_round_rule_scores
                Sample.two_rows [70; 0] 0%nat
                {| row_amount := 1000; row_scheme := None;
                   row_duplicate_flag := None |} 70 85 0 eq_refl eq_refl)
    as [H1 H2].
  assert (Hrule : Rules.round_amount Sample.two_rows [70; 0] !! 0%nat
                  = Some (70 + 15)) by (vm_compute; reflexivity).
  split; [exact (H2 Hrule)|exact Hrule].
Defined.

(** ** Timestamps *)

Section TimestampProperties.

Implicit Types (df : DataFrame).

(** X20: the rules look at the timestamp column only to see that it is
    there: whatever the times of the transactions, the rule scores are the
    same, so the burst rule counts the transactions of a beneficiary in
    the whole batch, not those close in time. *)
Theorem rule_scores_ignore_the_times df ts ts' :
  timestamp df = Some ts ->
  _apply_rules (set_timestamp ts' df) = _apply_rules df.
Proof.
  intros Hts. unfold _apply_rules.
  unfold Rules.round_amount, Rules.account, Rules.burst, Rules.very_high_amount,
    Rules.high_amount.
  cbn [set_timestamp amount beneficiary_id timestamp account_number len].
  change (len (set_timestamp ts' df)) with (len df).
  by rewrite Hts.
Qed.

End TimestampProperties.

(** Witness: three transactions of one beneficiary score 30 each, an hour
    apart or a year apart. *)
Lemma rule_scores_ignore_the_times_witness :
  _apply_rules (set_timestamp [0; 31536000; 63072000] Burst.with_timestamp)
  = _apply_rules Burst.with_timestamp /\
  _apply_rules Burst.with_timestamp = [30; 30; 30].
Proof.
  split; [|vm_compute; reflexivity].
  apply (rule_scores_ignore_the_times Burst.with_timestamp [0; 3600; 7200]
           [0; 31536000; 63072000] eq_refl).
Defined.
